(** * Samantha: capsule routing between front-end and back-end providers

    A shallow embedding of the Go sources of [fberrez/samantha]:
    the back-end manager ([backend/backend.go], both revisions), the
    front-end manager ([frontend/frontend.go]), the telegram binding
    ([frontend/provider/telegram]) and the watson binding
    ([backend/provider/watson/watson.go]).

    Channels are modelled by the sequence of values received on them and by
    the trace of values sent; calls into external services (the provider's
    HTTP call, the bot's send, the random source) are recorded in the trace
    or supplied as oracles. *)

From Stdlib Require Import NArith Ascii DecimalString.
From stdpp Require Import gmap strings list.

Open Scope string_scope.
Open Scope list_scope.

(** ** juju/errors

    The error values the sources build with [github.com/juju/errors].  The
    library is an external dependency; its constructors are represented by
    an inductive type that keeps the kind of the error (what
    [errors.IsNotFound] and its siblings test) and its message. *)
Module Errors.

Inductive error : Type :=
| NotFound (msg : string)
| NotImplemented (msg : string)
| NotValid (msg : string)
| NotProvisioned (msg : string)
| NotAssigned (msg : string)
| Annotate (cause : error) (annotation : string)
| External (text : string).

(** [err.Error()]: the typed constructors append their suffix to the
    formatted message; an annotation is printed in front of its cause. *)
Fixpoint Error (e : error) : string :=
  match e with
  | NotFound msg => msg +:+ " not found"
  | NotImplemented msg => msg +:+ " not implemented"
  | NotValid msg => msg +:+ " not valid"
  | NotProvisioned msg => msg +:+ " not provisioned"
  | NotAssigned msg => msg +:+ " not assigned"
  | Annotate cause annotation =>
      if String.eqb annotation "" then Error cause
      else annotation +:+ ": " +:+ Error cause
  | External text => text
  end.

(** [errors.IsNotFound] looks at the cause below the annotations. *)
Fixpoint IsNotFound (e : error) : bool :=
  match e with
  | NotFound _ => true
  | Annotate cause _ => IsNotFound cause
  | _ => false
  end.

Fixpoint IsNotImplemented (e : error) : bool :=
  match e with
  | NotImplemented _ => true
  | Annotate cause _ => IsNotImplemented cause
  | _ => false
  end.

Fixpoint IsNotValid (e : error) : bool :=
  match e with
  | NotValid _ => true
  | Annotate cause _ => IsNotValid cause
  | _ => false
  end.

End Errors.
Import Errors.

(** ** google/uuid

    [type UUID [16]byte], held as the 128-bit big-endian value of the
    sixteen bytes; [uuid.Nil] is the all-zero array.  Only what the sources
    use is represented: equality, [Version], [Version.String], [String]. *)
Module UUID.

Definition UUID : Type := N.

Definition Nil : UUID := 0%N.

(** [uuid[i]] for [i] in 0..15. *)
Definition byte_at (u : UUID) (i : N) : N :=
  N.land (N.shiftr u (8 * (15 - i))) 255.

(** [func (uuid UUID) Version() Version { return Version(uuid[6] >> 4) }] *)
Definition Version (u : UUID) : N := N.shiftr (byte_at u 6) 4.

Definition decimal (n : N) : string := NilZero.string_of_uint (N.to_uint n).

(** [func (v Version) String() string]: [BAD_VERSION_%d] above 15,
    [VERSION_%d] otherwise. *)
Definition Version_String (v : N) : string :=
  if (15 <? v)%N then "BAD_VERSION_" +:+ decimal v
  else "VERSION_" +:+ decimal v.

Definition hex_digit (n : N) : string :=
  match n with
  | 0 => "0" | 1 => "1" | 2 => "2" | 3 => "3" | 4 => "4" | 5 => "5"
  | 6 => "6" | 7 => "7" | 8 => "8" | 9 => "9" | 10 => "a" | 11 => "b"
  | 12 => "c" | 13 => "d" | 14 => "e" | _ => "f"
  end%N.

Definition hex_byte (b : N) : string :=
  hex_digit (N.shiftr b 4) +:+ hex_digit (N.land b 15).

Definition hex_bytes (u : UUID) (idx : list N) : string :=
  fold_right (fun i acc => hex_byte (byte_at u i) +:+ acc) "" idx.

(** [uuid.String()]: xxxxxxxx-xxxx-xxxx-xxxx-xxxxxxxxxxxx. *)
Definition String (u : UUID) : string :=
  hex_bytes u [0; 1; 2; 3]%N +:+ "-" +:+ hex_bytes u [4; 5]%N +:+ "-" +:+
  hex_bytes u [6; 7]%N +:+ "-" +:+ hex_bytes u [8; 9]%N +:+ "-" +:+
  hex_bytes u [10; 11; 12; 13; 14; 15]%N.

End UUID.

Abbreviation UUID := UUID.UUID.

(** A value received from a channel: [v, ok := <-ch]. *)
Inductive recv (A : Type) : Type :=
| Received (a : A)
| Closed.
Arguments Received {A} a.
Arguments Closed {A}.

(** ** capsule/capsule.go *)
Module capsule.

Record Capsule : Type := mkCapsule {
  OriginalMessage : UUID;
  FrontendProvider : string;
  Content : string;
  User : string;
  Responses : list string;
  Error : option error
}.

(** [c.Error = err] *)
Definition setError (c : Capsule) (err : error) : Capsule :=
  mkCapsule (OriginalMessage c) (FrontendProvider c) (Content c) (User c)
            (Responses c) (Some err).

(** [c.Responses = append(c.Responses, text)] *)
Definition appendResponse (c : Capsule) (text : string) : Capsule :=
  mkCapsule (OriginalMessage c) (FrontendProvider c) (Content c) (User c)
            (Responses c ++ [text]) (Error c).

End capsule.

Abbreviation Capsule := capsule.Capsule.

(** ** backend/provider: the back-end provider contract *)
Module bprovider.

Definition ContentType : Type := string.
Definition Text : ContentType := "Text".
Definition Image : ContentType := "Image".
Definition Audio : ContentType := "Audio".
Definition ErrorType : ContentType := "Error".

Record Output : Type := mkOutput {
  ResponseType : string;
  OText : string
}.

(** [Confidence float32] is only ever copied; it is kept as the 32-bit
    pattern of the float. *)
Record Intent : Type := mkIntent {
  IIntent : string;
  Confidence : N
}.

Record Response : Type := mkResponse {
  StatusCode : Z;
  Outputs : list Output;
  Intents : list Intent
}.

Record Config : Type := mkConfig {
  UserID : UUID;
  Label : string;
  URL : string;
  Version : string;
  Token : string;
  AssistantID : string
}.

(** A live provider behind the [Provider] interface.  What the remote
    service answers to [Message(text)] is an oracle. *)
Record Provider : Type := mkProvider {
  Message : string -> Response + error;
  GetLabel : string;
  Stop : option error
}.

(** The zero-value instance held by the registry: its [Initialize]. *)
Definition Prototype : Type := Config -> Provider + error.

End bprovider.

(** ** backend/backend.go, first revision

    The managers exchange YAML-encoded capsules over two channels of bytes.
    [yaml.Unmarshal] and [yaml.Marshal] are external and taken as
    parameters. *)
Module BackendV1.
Import bprovider.

Record CapsuleIn : Type := mkCapsuleIn {
  RespondTo : UUID;
  ProviderLabel : string;
  CContentType : ContentType;
  Content : string;
  User : string
}.

Record CapsuleOut : Type := mkCapsuleOut {
  ORespondTo : UUID;
  OProviderLabel : string;
  OContentType : ContentType;
  OContent : string;
  OUser : string;
  OError : error
}.

Inductive event : Type :=
| CallMessage (text : string)
| SendError (data : string)
| LogError (e : error)
| CallStop.

(** The first test of [capsuleIsValid]:
    [capsule.RespondTo == uuid.Nil &&
     capsule.RespondTo.Version().String() == "VERSION_4"]. *)
Definition uuidNotValid (c : CapsuleIn) : bool :=
  bool_decide (RespondTo c = UUID.Nil) &&
  String.eqb (UUID.Version_String (UUID.Version (RespondTo c))) "VERSION_4".

Definition capsuleIsValid (c : CapsuleIn) : option error :=
  if uuidNotValid c then
    Some (NotValid ("uuid " +:+ UUID.String (RespondTo c)))
  else if (String.length (Content c) =? 0)%nat then
    Some (NotProvisioned ("content (capsule " +:+ UUID.String (RespondTo c) +:+ ")"))
  else if (String.length (CContentType c) =? 0)%nat then
    Some (NotAssigned ("input type " +:+ CContentType c +:+ " (capsule "
                       +:+ UUID.String (RespondTo c) +:+ ")"))
  else if (String.length (ProviderLabel c) =? 0)%nat then
    Some (NotAssigned ("provider (capsule " +:+ UUID.String (RespondTo c) +:+ ")"))
  else if (String.length (User c) =? 0)%nat then
    Some (NotAssigned ("user (capsule " +:+ UUID.String (RespondTo c) +:+ ")"))
  else None.

(** [Backend.message]: dispatch on the content type.  The first component
    of the result is the trace of calls made to the provider. *)
Definition message (p : Provider) (c : CapsuleIn)
  : list event * (Response + error) :=
  if String.eqb (CContentType c) Text then
    ([CallMessage (Content c)], Message p (Content c))
  else if String.eqb (CContentType c) Image then
    ([], inr (NotImplemented (CContentType c +:+ " message handling")))
  else if String.eqb (CContentType c) Audio then
    ([], inr (NotImplemented (CContentType c +:+ " message handling")))
  else
    ([], inr (NotFound ("input type " +:+ CContentType c))).

Section Manager.
Variable yamlUnmarshal : string -> CapsuleIn + error.
Variable yamlMarshal : CapsuleOut -> string + error.
Variable activatedProvider : Provider.

Definition unmarshalCapsule (data : string) : CapsuleIn + error :=
  match yamlUnmarshal data with
  | inr err => inr (Annotate err "unmarshaling capsule")
  | inl c =>
      match capsuleIsValid c with
      | Some err => inr (Annotate err "unmarshaling capsule")
      | None => inl c
      end
  end.

Definition errorHandler (original : CapsuleIn) (err : error)
  : list event * option error :=
  let capsuleOut :=
    mkCapsuleOut (RespondTo original) (ProviderLabel original) ErrorType
                 (Content original) (User original) err in
  match yamlMarshal capsuleOut with
  | inr err' => ([], Some (Annotate err' "handling error"))
  | inl data => ([SendError data], None)
  end.

(** One turn of the listening loop of [Start] on the bytes received. *)
Definition receive (data : string) : list event :=
  match unmarshalCapsule data with
  | inr err => [LogError err]
  | inl c =>
      CallMessage (Content c) ::
      match Message activatedProvider (Content c) with
      | inr err =>
          let '(evs, r) := errorHandler c err in
          evs ++ match r with Some e => [LogError e] | None => [] end
      | inl _ => []
      end
  end.

Fixpoint Start (capsuleInChan : list (recv string)) : list event :=
  match capsuleInChan with
  | [] => []
  | Closed :: _ => [CallStop]
  | Received data :: rest => receive data ++ Start rest
  end.
End Manager.

(** What a trace sends on [backendErrorChan], and the texts it hands to
    the provider. *)
Definition sentErrors (evs : list event) : list string :=
  omap (fun ev => match ev with SendError data => Some data | _ => None end) evs.

Definition calls (evs : list event) : list string :=
  omap (fun ev => match ev with CallMessage text => Some text | _ => None end) evs.

End BackendV1.

(** ** backend/backend.go, second revision

    One shared channel of [*capsule.Capsule] in both directions. *)
Module Backend.
Import bprovider.

Inductive event : Type :=
| CallMessage (text : string)
| SendCapsule (c : Capsule)
| LogError (e : error)
| CallStop.

Definition loadProvider (providerCollection : gmap string Prototype)
    (providerConfig : Config) : Provider + error :=
  match providerCollection !! Label providerConfig with
  | None => inr (NotFound ("provider called `" +:+ Label providerConfig +:+ "`"))
  | Some p =>
      match p providerConfig with
      | inr err => inr (Annotate err ("loading provider " +:+ Label providerConfig))
      | inl p' => inl p'
      end
  end.

Section Manager.
Variable activatedProvider : Provider.

(** [original.Error = err; b.capsule <- original; return nil] *)
Definition errorHandler (original : Capsule) (err : error)
  : list event * option error :=
  ([SendCapsule (capsule.setError original err)], None).

(** [for _, output := range response.Outputs
       { capsule.Responses = append(capsule.Responses, output.Text) }] *)
Definition collect (c : Capsule) (outputs : list Output) : Capsule :=
  fold_left (fun c output => capsule.appendResponse c (OText output)) outputs c.

(** One turn of the listening loop of [Start] on the capsule received. *)
Definition receive (c : Capsule) : list event :=
  CallMessage (capsule.Content c) ::
  match Message activatedProvider (capsule.Content c) with
  | inr err =>
      let '(evs, r) := errorHandler c err in
      evs ++ match r with Some e => [LogError e] | None => [] end
  | inl response => [SendCapsule (collect c (Outputs response))]
  end.

Fixpoint Start (inbox : list (recv Capsule)) : list event :=
  match inbox with
  | [] => []
  | Closed :: _ => [CallStop]
  | Received c :: rest => receive c ++ Start rest
  end.
End Manager.

(** The capsules a trace puts on the shared channel, and the texts it
    hands to the provider. *)
Definition sends (evs : list event) : list Capsule :=
  omap (fun ev => match ev with SendCapsule c => Some c | _ => None end) evs.

Definition calls (evs : list event) : list string :=
  omap (fun ev => match ev with CallMessage text => Some text | _ => None end) evs.

Record Backend : Type := mkBackend {
  activatedProvider : Provider
}.

(** [New]; [loadConfig] is what reading the configuration file gave. *)
Definition New (providerCollection : gmap string Prototype)
    (loadConfig : Config + error) : Backend + error :=
  match loadConfig with
  | inr err => inr (Annotate err "initiliazing frontend")
  | inl providerConfig =>
      match loadProvider providerCollection providerConfig with
      | inr err => inr (Annotate err "initiliazing frontend")
      | inl p => inl (mkBackend p)
      end
  end.

End Backend.

(** ** strings.Split with a one-byte separator

    [strings.Split(s, sep)] of the Go standard library, for the separator
    of length one that the sources use: the pieces of [s] between the
    occurrences of [sep], the empty string giving one empty piece. *)
Module strings.

Fixpoint Split (s : string) (sep : ascii) : list string :=
  match s with
  | EmptyString => [EmptyString]
  | String c s' =>
      if Ascii.eqb c sep then EmptyString :: Split s' sep
      else match Split s' sep with
           | piece :: pieces => String c piece :: pieces
           | [] => [String c EmptyString]
           end
  end.

(** [strings.Count(s, sep)] *)
Fixpoint Count (s : string) (sep : ascii) : nat :=
  match s with
  | EmptyString => 0
  | String c s' => (if Ascii.eqb c sep then 1 else 0) + Count s' sep
  end.

(** [strings.Join(pieces, sep)] *)
Fixpoint Join (pieces : list string) (sep : ascii) : string :=
  match pieces with
  | [] => EmptyString
  | [piece] => piece
  | piece :: rest => piece +:+ String sep (Join rest sep)
  end.

Definition newline : ascii := "010"%char.

End strings.

(** ** backend/provider/watson/watson.go *)
Module watson.
Import bprovider.

Record Generic : Type := mkGeneric {
  GResponseType : string;
  GText : string
}.

Record WIntent : Type := mkWIntent {
  WIntent_Intent : string;
  WIntent_Confidence : N
}.

(** Slices of pointers: a [nil] element is [None]. *)
Record OutputWatson : Type := mkOutputWatson {
  Generics : list (option Generic);
  WIntents : list (option WIntent)
}.

Record ResultWatson : Type := mkResultWatson {
  Output : option OutputWatson
}.

Record ResponseWatson : Type := mkResponseWatson {
  WStatusCode : Z;
  Result : option ResultWatson
}.

(** What a call does: it returns, or it panics on a nil dereference. *)
Inductive outcome (A : Type) : Type :=
| Returned (a : A)
| Panicked.
Arguments Returned {A} a.
Arguments Panicked {A}.

(** The inner loop: one output per line of the generic's text, appended
    to [outputs]. *)
Definition appendLines (outputs : list bprovider.Output) (generic : Generic)
  : list bprovider.Output :=
  fold_left
    (fun outputs response => outputs ++ [mkOutput (GResponseType generic) response])
    (strings.Split (GText generic) strings.newline)
    outputs.

(** The loop over [Generics]; reading a field of a nil generic panics. *)
Fixpoint convertGenerics (generics : list (option Generic))
    (outputs : list bprovider.Output) : outcome (list bprovider.Output) :=
  match generics with
  | [] => Returned outputs
  | None :: _ => Panicked
  | Some generic :: rest => convertGenerics rest (appendLines outputs generic)
  end.

Fixpoint convertIntents (wintents : list (option WIntent))
    (intents : list bprovider.Intent) : outcome (list bprovider.Intent) :=
  match wintents with
  | [] => Returned intents
  | None :: _ => Panicked
  | Some intent :: rest =>
      convertIntents rest
        (intents ++ [mkIntent (WIntent_Intent intent) (WIntent_Confidence intent)])
  end.

Section Convert.
(** [json.Unmarshal] into a [ResponseWatson], external. *)
Variable jsonUnmarshal : string -> ResponseWatson + error.

Definition convertResponse (response : string)
  : outcome (bprovider.Response + error) :=
  match jsonUnmarshal response with
  | inr err => Returned (inr (Annotate err "converting watson response"))
  | inl wResponse =>
      match Result wResponse with
      | None => Panicked
      | Some result =>
          match Output result with
          | None => Panicked
          | Some output =>
              match convertGenerics (Generics output) [] with
              | Panicked => Panicked
              | Returned outputs =>
                  match convertIntents (WIntents output) [] with
                  | Panicked => Panicked
                  | Returned intents =>
                      Returned (inl (mkResponse (WStatusCode wResponse) outputs intents))
                  end
              end
          end
      end
  end.
End Convert.

(** *** The outputs as the specification words them

    The in-order concatenation, over the generic items, of each item's
    text split on newlines, every line carrying the item's response
    type. *)
Definition linesOf (generic : Generic) : list bprovider.Output :=
  map (mkOutput (GResponseType generic))
      (strings.Split (GText generic) strings.newline).

Definition outputsSpec (generics : list Generic) : list bprovider.Output :=
  concat (map linesOf generics).

(** A well-formed response: no nil pointer where the code dereferences. *)
Definition wellFormed (w : ResponseWatson) (generics : list Generic)
    (wintents : list WIntent) : Prop :=
  exists result output,
    Result w = Some result /\ Output result = Some output /\
    Generics output = map Some generics /\
    WIntents output = map Some wintents.

End watson.

(** ** frontend/provider: the front-end provider contract *)
Module fprovider.

Record User : Type := mkUser {
  ID : Z;
  Name : string
}.

Record CapsuleProvider : Type := mkCapsuleProvider {
  OriginalMessage : UUID;
  ProviderLabel : string;
  Content : string;
  CUser : string
}.

(** [Config]; its [UserInput] channel is the trace of [UserInput]
    effects of the binding. *)
Record Config : Type := mkConfig {
  Token : string;
  AuthorizedUsers : list User
}.

Definition ContentType : Type := string.
Definition Text : ContentType := "Text".
Definition Image : ContentType := "Image".
Definition Audio : ContentType := "Audio".
Definition ErrorType : ContentType := "Error".

Definition SystemLogStatus : Type := string.
Definition ErrorStatus : SystemLogStatus := "Error".
Definition Info : SystemLogStatus := "Info".

(** [fmt.Sprintf("[SYSTEM]%s: %s", status, content)] *)
Definition SystemLog (content : string) (status : SystemLogStatus) : string :=
  "[SYSTEM]" +:+ status +:+ ": " +:+ content.

(** The [Provider] interface, for bindings of state [P] whose visible
    effects are of type [E].  Every binding is given the one [userInput]
    channel the manager creates; [Stop] is told whether that channel is
    still open and answers whether it is open afterwards, or [None] when
    the call panics. *)
Class Provider (P E : Type) : Type := {
  GetLabel : P -> string;
  Message : P -> Capsule -> P * list E * option error;
  Stop : P -> bool -> option bool
}.

End fprovider.

(** ** frontend/provider/telegram *)
Module telegram.
Import fprovider.

(** [tb.User] and [tb.Message], the fields the binding reads.  The sender
    of a message handled by [tb.OnText] is never nil. *)
Record TbUser : Type := mkTbUser {
  TbID : Z;
  Username : string
}.

Record TbMessage : Type := mkTbMessage {
  Sender : TbUser;
  TbText : string
}.

Record message : Type := mkMessage {
  uuid : UUID;
  contentType : ContentType;
  content : string;
  user : TbUser
}.

(** The binding's own state; [Bot] and [userInput] are seen through the
    effects below. *)
Record Telegram : Type := mkTelegram {
  TAuthorizedUsers : list User;
  pendingMessages : list message
}.

Inductive effect : Type :=
| BotSend (to : TbUser) (what : string)
| UserInput (c : CapsuleProvider)
| LogDebug (what : string).

Definition label : string := "telegram".

Definition withPending (t : Telegram) (pending : list message) : Telegram :=
  mkTelegram (TAuthorizedUsers t) pending.

(** [for i, m := range t.pendingMessages { if m.uuid == uuid ... }]:
    the index and the entry of the first match. *)
Fixpoint scanPending (u : UUID) (pending : list message) (i : nat)
  : option (nat * message) :=
  match pending with
  | [] => None
  | m :: rest =>
      if bool_decide (uuid m = u) then Some (i, m)
      else scanPending u rest (S i)
  end.

Definition findPendingMessage (t : Telegram) (u : UUID)
  : Telegram * (message + error) :=
  if (length (pendingMessages t) =? 0)%nat then
    (t, inr (NotProvisioned "pending messages"))
  else
    match scanPending u (pendingMessages t) 0 with
    | Some (i, m) =>
        (withPending t (take i (pendingMessages t) ++ drop (S i) (pendingMessages t)),
         inl m)
    | None => (t, inr (NotFound ("message (uuid: " +:+ UUID.String u +:+ ")")))
    end.

Definition sendTextMessage (t : Telegram) (respondTo : UUID)
    (responses : list string) : Telegram * list effect * option error :=
  match findPendingMessage t respondTo with
  | (t', inr err) => (t', [], Some err)
  | (t', inl pendingMessage) =>
      (t', map (BotSend (user pendingMessage)) responses, None)
  end.

Definition sendErrorMessage (t : Telegram) (respondTo : UUID) (err : error)
  : Telegram * list effect * option error :=
  match findPendingMessage t respondTo with
  | (t', inr err') => (t', [], Some err')
  | (t', inl pendingMessage) =>
      (t', [BotSend (user pendingMessage) (SystemLog (Error err) ErrorStatus)], None)
  end.

(** [Telegram.Message] *)
Definition Message (t : Telegram) (c : Capsule)
  : Telegram * list effect * option error :=
  match capsule.Error c with
  | Some err =>
      if (0 <? String.length (Error err))%nat then
        sendErrorMessage t (capsule.OriginalMessage c) err
      else sendTextMessage t (capsule.OriginalMessage c) (capsule.Responses c)
  | None => sendTextMessage t (capsule.OriginalMessage c) (capsule.Responses c)
  end.

Definition messageToCapsuleProvider (msg : message) : CapsuleProvider :=
  mkCapsuleProvider (uuid msg) label (content msg) (Username (user msg)).

(** [processUserMessage]; [newRandom] is what [uuid.NewRandom()] returns. *)
Definition processUserMessage (t : Telegram) (userMessage : TbMessage)
    (ct : ContentType) (newRandom : UUID + error)
  : Telegram * list effect * option error :=
  match newRandom with
  | inr err => (t, [], Some (Annotate err "proccessing user message"))
  | inl u =>
      if String.eqb ct Text then
        let msg := mkMessage u Text (TbText userMessage) (Sender userMessage) in
        (withPending t (pendingMessages t ++ [msg]),
         [UserInput (messageToCapsuleProvider msg)], None)
      else if String.eqb ct Audio then
        (t, [], Some (NotImplemented (ct +:+ " message handling")))
      else if String.eqb ct Image then
        (t, [], Some (NotImplemented (ct +:+ " message handling")))
      else (t, [], Some (NotFound ("input type " +:+ ct)))
  end.

(** The authorization loop of [textMessageHandler]. *)
Fixpoint userIsValid (users : list User) (sender : TbUser) : bool :=
  match users with
  | [] => false
  | u :: rest =>
      if String.eqb (Name u) (Username sender) && (ID u =? TbID sender)%Z
      then true
      else userIsValid rest sender
  end.

(** The handler [textMessageHandler] registers for [tb.OnText]. *)
Definition textMessageHandler (t : Telegram) (msg : TbMessage)
    (newRandom : UUID + error) : Telegram * list effect :=
  if negb (userIsValid (TAuthorizedUsers t) (Sender msg)) then
    (t, [LogDebug "User message received from unauthorized user"])
  else
    let '(t', effects, r) := processUserMessage t msg Text newRandom in
    (t',
     LogDebug "User message received" :: effects ++
     match r with
     | Some err => [BotSend (Sender msg) (SystemLog (Error err) ErrorStatus)]
     | None => []
     end).

Definition photoMessageHandler (t : Telegram) (msg : TbMessage)
  : Telegram * list effect :=
  (t, [BotSend (Sender msg)
         (SystemLog "Photo message handling is not implemented" ErrorStatus)]).

Definition audioMessageHandler (t : Telegram) (msg : TbMessage)
  : Telegram * list effect :=
  (t, [BotSend (Sender msg)
         (SystemLog "Audio message handling is not implemented" ErrorStatus)]).

(** [Stop]: [close(t.userInput); t.Bot.Stop()].  Closing a channel that
    is already closed panics; otherwise the channel is closed and the bot
    stopped. *)
Definition Stop (t : Telegram) (userInputOpen : bool) : option bool :=
  if userInputOpen then Some false else None.

#[global] Instance telegramProvider : Provider Telegram effect := {
  GetLabel := fun _ => label;
  Message := Message;
  Stop := Stop
}.

(** What a trace of the binding sends to the front-end manager, and what
    it sends to users through the bot. *)
Definition forwarded (effects : list effect) : list CapsuleProvider :=
  omap (fun e => match e with UserInput c => Some c | _ => None end) effects.

Definition replies (effects : list effect) : list (TbUser * string) :=
  omap (fun e => match e with BotSend to what => Some (to, what) | _ => None end) effects.

(** The error [findPendingMessage] returns on a miss: "not provisioned" on
    an empty table, "not found" otherwise. *)
Definition missError (t : Telegram) (u : UUID) : error :=
  if (length (pendingMessages t) =? 0)%nat then NotProvisioned "pending messages"
  else NotFound ("message (uuid: " +:+ UUID.String u +:+ ")").

(** [Initialize]; [newBot] is what [tb.NewBot] answers for the token. *)
Definition Initialize (newBot : string -> option error) (config : Config)
  : Telegram + error :=
  match newBot (Token config) with
  | Some err => inr (Annotate err "initializing telegram")
  | None => inl (mkTelegram (AuthorizedUsers config) [])
  end.

End telegram.

(** ** frontend/frontend.go, second revision *)
Module Frontend.
Import fprovider.

Record ProviderConfig : Type := mkProviderConfig {
  Label : string;
  IsActivated : bool;
  PToken : string;
  PAuthorizedUsers : list User
}.

Inductive event (E : Type) : Type :=
| CallStart (label : string)
| CallMessage (label : string) (c : Capsule)
| Effect (e : E)
| SendCapsule (c : Capsule)
| LogError (err : error)
| CallStop (label : string)
| Panic.
Arguments CallStart {E} label.
Arguments CallMessage {E} label c.
Arguments Effect {E} e.
Arguments SendCapsule {E} c.
Arguments LogError {E} err.
Arguments CallStop {E} label.
Arguments Panic {E}.

(** What the [select] of the dispatch loop picked. *)
Inductive selected : Type :=
| FromUserInput (r : recv CapsuleProvider)
| FromCapsule (r : recv Capsule).

Section Manager.
Context {P E : Type} `{!Provider P E}.

(** The registry: label to the [Initialize] of the zero-value instance. *)
Variable providerCollection : gmap string (Config -> P + error).

Record Frontend : Type := mkFrontend {
  activatedProviders : list P
}.

(** [config := &provider.Config{Token: pc.Token, AuthorizedUsers: ...}] *)
Definition configFor (pc : ProviderConfig) : Config :=
  mkConfig (PToken pc) (PAuthorizedUsers pc).

(** The loop of [loadProvider], [providers] being the slice built so far. *)
Fixpoint loadProviderFrom (providerConfig : list ProviderConfig)
    (providers : list P) : list P + error :=
  match providerConfig with
  | [] => inl providers
  | pc :: rest =>
      match providerCollection !! Label pc with
      | None => inr (NotFound ("provider called `" +:+ Label pc +:+ "`"))
      | Some p =>
          if IsActivated pc then
            match p (configFor pc) with
            | inr err => inr (Annotate err ("loading provider " +:+ Label pc))
            | inl p' => loadProviderFrom rest (providers ++ [p'])
            end
          else loadProviderFrom rest providers
      end
  end.

Definition loadProvider (providerConfig : list ProviderConfig) : list P + error :=
  loadProviderFrom providerConfig [].

(** [New]; [loadConfig] is what reading the configuration file gave. *)
Definition New (loadConfig : list ProviderConfig + error) : Frontend + error :=
  match loadConfig with
  | inr err => inr (Annotate err "initiliazing frontend")
  | inl providerConfig =>
      match loadProvider providerConfig with
      | inr err => inr (Annotate err "initiliazing frontend")
      | inl providers => inl (mkFrontend providers)
      end
  end.

(** *** Initialization as the specification words it

    A configuration entry is resolved by [p] when its label is in the
    registry and the registered instance initializes to [p]; it fails
    with "provider not found" when the label is unknown, and with the
    provider's own error, annotated, when an activated provider does not
    initialize. *)
Definition resolved (pc : ProviderConfig) (p : P) : Prop :=
  exists proto, providerCollection !! Label pc = Some proto /\
                proto (configFor pc) = inl p.

Definition failsWith (pc : ProviderConfig) (err : error) : Prop :=
  (providerCollection !! Label pc = None /\
   err = NotFound ("provider called `" +:+ Label pc +:+ "`")) \/
  (exists proto cause,
     providerCollection !! Label pc = Some proto /\ IsActivated pc = true /\
     proto (configFor pc) = inr cause /\
     err = Annotate cause ("loading provider " +:+ Label pc)).

Definition sendToBackend (userInput : CapsuleProvider) : Capsule :=
  capsule.mkCapsule (OriginalMessage userInput) (ProviderLabel userInput)
                    (Content userInput) (CUser userInput) [] None.

(** [Frontend.message]: the providers after the call, the trace, and the
    error returned. *)
Fixpoint message (providers : list P) (c : Capsule)
  : list P * list (event E) * option error :=
  match providers with
  | [] => ([], [], Some (NotFound ("frontend provider " +:+ capsule.FrontendProvider c)))
  | p :: rest =>
      if String.eqb (capsule.FrontendProvider c) (GetLabel p) then
        let '(p', effects, r) := Message p c in
        (p' :: rest, CallMessage (GetLabel p) c :: map Effect effects, r)
      else
        let '(rest', evs, r) := message rest c in
        (p :: rest', evs, r)
  end.

(** [q]'s label is not the one the capsule is addressed to. *)
Definition notFor (c : Capsule) (q : P) : Prop :=
  GetLabel q <> capsule.FrontendProvider c.

(** [stopProviders]: [p.Stop()] on each provider in turn, all of them
    holding the same [userInput] channel.  A call that panics ends the
    trace: the providers after it are not stopped and [Start] does not
    return. *)
Fixpoint stopProviders (providers : list P) (userInputOpen : bool)
  : list (event E) :=
  match providers with
  | [] => []
  | p :: rest =>
      CallStop (GetLabel p) ::
      match Stop p userInputOpen with
      | None => [Panic]
      | Some stillOpen => stopProviders rest stillOpen
      end
  end.

(** The dispatch loop of [Start].  [userInput] is closed by [Stop] alone:
    it is open when the capsule channel is found closed, and closed when
    it is itself found closed. *)
Fixpoint listen (providers : list P) (inputs : list selected)
  : list P * list (event E) :=
  match inputs with
  | [] => (providers, [])
  | FromUserInput Closed :: _ => (providers, stopProviders providers false)
  | FromCapsule Closed :: _ => (providers, stopProviders providers true)
  | FromUserInput (Received userInput) :: rest =>
      let '(providers', evs) := listen providers rest in
      (providers', SendCapsule (sendToBackend userInput) :: evs)
  | FromCapsule (Received c) :: rest =>
      let '(providers1, evs1, r) := message providers c in
      let '(providers2, evs2) := listen providers1 rest in
      (providers2,
       evs1 ++ match r with Some err => [LogError err] | None => [] end ++ evs2)
  end.

Definition Start (f : Frontend) (inputs : list selected)
  : list P * list (event E) :=
  let '(providers, evs) := listen (activatedProviders f) inputs in
  (providers, map (fun p => CallStart (GetLabel p)) (activatedProviders f) ++ evs).
End Manager.

(** The capsules a trace of the manager puts on the shared channel, the
    providers it stops and the provider calls it makes. *)
Definition sentToBackend {E : Type} (evs : list (event E)) : list Capsule :=
  omap (fun ev => match ev with SendCapsule c => Some c | _ => None end) evs.

Definition stopped {E : Type} (evs : list (event E)) : list string :=
  omap (fun ev => match ev with CallStop l => Some l | _ => None end) evs.

Definition delivered {E : Type} (evs : list (event E)) : list (string * Capsule) :=
  omap (fun ev => match ev with CallMessage l c => Some (l, c) | _ => None end) evs.

(** The values received before the inputs close. *)
Definition userInputs (inputs : list selected) : list CapsuleProvider :=
  omap (fun i => match i with FromUserInput (Received u) => Some u | _ => None end) inputs.

Definition isOpen (i : selected) : bool :=
  match i with
  | FromUserInput Closed | FromCapsule Closed => false
  | _ => true
  end.

End Frontend.

(** ** frontend/provider/provider.go, first revision

    The provider receives the fields of the capsule, not the capsule. *)
Module fproviderV1.

Definition ContentType : Type := string.

Record CapsuleProvider : Type := mkCapsuleProvider {
  RespondTo : UUID;
  ProviderLabel : string;
  CContentType : ContentType;
  Content : string;
  User : string
}.

Record CapsuleIn : Type := mkCapsuleIn {
  IRespondTo : UUID;
  IProviderLabel : string;
  IContentType : ContentType;
  IContent : string;
  IUser : string;
  IError : option error
}.

(** [provider.CapsuleIn{}] *)
Definition zeroCapsuleIn : CapsuleIn := mkCapsuleIn UUID.Nil "" "" "" "" None.

Class Provider (P E : Type) : Type := {
  GetLabel : P -> string;
  Message : P -> UUID -> ContentType -> string -> P * list E * option error
}.

End fproviderV1.

(** ** frontend/frontend.go, first revision

    Encoded capsules go out on [capsuleOutChan]; encoded error capsules
    come back on [backendErrorChan].  [yaml.Marshal] is a parameter, and
    so is [yaml.Unmarshal], which fills the capsule passed to it and
    returns its error. *)
Module FrontendV1.
Import fproviderV1.

Inductive event (E : Type) : Type :=
| CallMessage (label : string) (respondTo : UUID) (ct : ContentType) (content : string)
| Effect (e : E)
| SendData (data : string)
| LogError (err : error)
| CallStop (label : string).
Arguments CallMessage {E} label respondTo ct content.
Arguments Effect {E} e.
Arguments SendData {E} data.
Arguments LogError {E} err.
Arguments CallStop {E} label.

Inductive selected : Type :=
| FromUserInput (r : recv CapsuleProvider)
| FromBackendError (r : recv string).

Definition isOpen (i : selected) : bool :=
  match i with
  | FromUserInput Closed | FromBackendError Closed => false
  | _ => true
  end.

Definition userInputs (inputs : list selected) : list CapsuleProvider :=
  omap (fun i => match i with FromUserInput (Received u) => Some u | _ => None end) inputs.

Definition sentData {E : Type} (evs : list (event E)) : list string :=
  omap (fun ev => match ev with SendData data => Some data | _ => None end) evs.

Definition logged {E : Type} (r : option error) : list (event E) :=
  match r with Some err => [LogError err] | None => [] end.

Section Manager.
Context {P E : Type} `{!Provider P E}.
Variable yamlMarshal : CapsuleProvider -> string + error.
Variable yamlUnmarshal : string -> CapsuleIn -> CapsuleIn * option error.

Definition sendToBackend (c : CapsuleProvider) : list (event E) * option error :=
  match yamlMarshal c with
  | inr err => ([], Some (Annotate err "sending capsule from frontend to backend"))
  | inl data => ([SendData data], None)
  end.

Fixpoint message (providers : list P) (c : CapsuleIn)
  : list P * list (event E) * option error :=
  match providers with
  | [] => ([], [], Some (NotFound ("frontend provider " +:+ IProviderLabel c)))
  | p :: rest =>
      if String.eqb (IProviderLabel c) (GetLabel p) then
        let '(p', effects, r) := Message p (IRespondTo c) (IContentType c) (IContent c) in
        (p' :: rest,
         CallMessage (GetLabel p) (IRespondTo c) (IContentType c) (IContent c)
           :: map Effect effects,
         r)
      else
        let '(rest', evs, r) := message rest c in
        (p :: rest', evs, r)
  end.

Definition stopProviders (providers : list P) : list (event E) :=
  map (fun p => CallStop (GetLabel p)) providers.

(** The dispatch loop of [Start].  After [yaml.Unmarshal] has failed the
    error is logged and the loop body goes on to [f.message] with the
    capsule as the decoder left it. *)
Fixpoint listen (providers : list P) (inputs : list selected)
  : list P * list (event E) :=
  match inputs with
  | [] => (providers, [])
  | FromUserInput Closed :: _ => (providers, stopProviders providers)
  | FromBackendError Closed :: _ => (providers, stopProviders providers)
  | FromUserInput (Received c) :: rest =>
      let '(evs1, r) := sendToBackend c in
      let '(providers', evs2) := listen providers rest in
      (providers', evs1 ++ logged r ++ evs2)
  | FromBackendError (Received data) :: rest =>
      let '(c, decodeError) := yamlUnmarshal data zeroCapsuleIn in
      let '(providers1, evs1, r) := message providers c in
      let '(providers2, evs2) := listen providers1 rest in
      (providers2, logged decodeError ++ evs1 ++ logged r ++ evs2)
  end.
End Manager.

End FrontendV1.

(** ** Concrete values used by the examples below *)
Module Fixtures.

Definition imageCapsule : BackendV1.CapsuleIn :=
  BackendV1.mkCapsuleIn 7%N "telegram" bprovider.Image "png-bytes" "bob".

Definition echoProvider : bprovider.Provider :=
  bprovider.mkProvider
    (fun text => inl (bprovider.mkResponse 200 [bprovider.mkOutput "text" text] []))
    "echo" None.

Definition abProvider : bprovider.Provider :=
  bprovider.mkProvider
    (fun _ => inl (bprovider.mkResponse 200
                     [bprovider.mkOutput "text" "A"; bprovider.mkOutput "text" "B"] []))
    "ab" None.

Definition failingProvider : bprovider.Provider :=
  bprovider.mkProvider (fun _ => inr (External "watson unreachable")) "down" None.

Definition helloCapsule : Capsule :=
  capsule.mkCapsule 7%N "telegram" "hello" "bob" [] None.

Definition bob : telegram.TbUser := telegram.mkTbUser 42 "bob".
Definition eve : telegram.TbUser := telegram.mkTbUser 13 "eve".

Definition pendingHello : telegram.message :=
  telegram.mkMessage 7%N fprovider.Text "hello" bob.
Definition pendingBye : telegram.message :=
  telegram.mkMessage 9%N fprovider.Text "bye" bob.

Definition onePending : telegram.Telegram :=
  telegram.mkTelegram [fprovider.mkUser 42 "bob"] [pendingHello].
Definition twoPending : telegram.Telegram :=
  telegram.mkTelegram [fprovider.mkUser 42 "bob"] [pendingHello; pendingBye].

Definition replyCapsule : Capsule :=
  capsule.mkCapsule 7%N "telegram" "hello" "bob" ["hi bob"; "how are you?"] None.
Definition errorCapsule : Capsule :=
  capsule.mkCapsule 7%N "telegram" "hello" "bob" ["hi bob"]
                    (Some (External "watson unreachable")).

Definition strayCapsule : Capsule :=
  capsule.mkCapsule 7%N "messenger" "hello" "bob" ["hi bob"] None.

(** A registry whose telegram entry initializes unless the token is
    empty. *)
Definition telegramInit (config : fprovider.Config) : telegram.Telegram + error :=
  if String.eqb (fprovider.Token config) "" then
    inr (Annotate (External "telegram: token required") "initializing telegram")
  else inl (telegram.mkTelegram (fprovider.AuthorizedUsers config) []).

Definition registry : gmap string (fprovider.Config -> telegram.Telegram + error) :=
  {[ "telegram" := telegramInit ]}.

Definition telegramConfig : Frontend.ProviderConfig :=
  Frontend.mkProviderConfig "telegram" true "secret" [fprovider.mkUser 42 "bob"].

Definition twoLines : watson.ResponseWatson :=
  watson.mkResponseWatson 200
    (Some (watson.mkResultWatson
       (Some (watson.mkOutputWatson
          [Some (watson.mkGeneric "text" ("hello" +:+ String strings.newline "world"));
           Some (watson.mkGeneric "text" "bye")]
          [Some (watson.mkWIntent "greeting" 1065353216%N)])))).

(** A second telegram binding, with its own pending message, and the
    reply to that message. *)
Definition byePending : telegram.Telegram :=
  telegram.mkTelegram [fprovider.mkUser 42 "bob"] [pendingBye].

Definition byeReply : Capsule :=
  capsule.mkCapsule 9%N "telegram" "bye" "bob" ["see you"] None.

(** A first-revision provider whose state is its label and whose only
    effect is to show the content it is given. *)
#[global] Instance labelProvider : fproviderV1.Provider string string := {
  fproviderV1.GetLabel := fun l => l;
  fproviderV1.Message := fun l _ _ content => (l, [content], None)
}.

(** An encoder that refuses empty contents, and a decoder that always
    fails and leaves the capsule untouched. *)
Definition marshalContent (c : fproviderV1.CapsuleProvider) : string + error :=
  if String.eqb (fproviderV1.Content c) "" then inr (External "yaml: empty")
  else inl (fproviderV1.Content c).

Definition unmarshalFails (data : string) (into : fproviderV1.CapsuleIn)
  : fproviderV1.CapsuleIn * option error :=
  (into, Some (External "yaml: did not find expected key")).

End Fixtures.

(** * Properties *)

(** ** The UUID test of [capsuleIsValid] *)
Section CapsuleIsValid.
Import BackendV1.

Lemma Version_String_Nil : UUID.Version_String (UUID.Version UUID.Nil) = "VERSION_0".
Proof. reflexivity. Qed.

Lemma uuidNotValid_false (c : CapsuleIn) : uuidNotValid c = false.
Proof.
  unfold uuidNotValid.
  case_bool_decide as Hnil; [| reflexivity].
  rewrite Hnil, Version_String_Nil. reflexivity.
Qed.

(** C5: for every inbound [CapsuleIn] the conjunction "RespondTo is the
    nil UUID and its version string is VERSION_4" evaluates to false, so
    [capsuleIsValid] never answers with the "uuid not valid" error. *)
Theorem capsuleIsValid_uuid_branch_unreachable :
  forall c : CapsuleIn,
    uuidNotValid c = false /\
    (forall msg, capsuleIsValid c <> Some (NotValid msg)) /\
    (forall err, capsuleIsValid c = Some err -> IsNotValid err = false).
Proof.
  intros c. split; [apply uuidNotValid_false |].
  assert (Hkind : forall err, capsuleIsValid c = Some err -> IsNotValid err = false).
  { intros err. unfold capsuleIsValid. rewrite uuidNotValid_false.
    repeat case_match; intros [= <-]; reflexivity. }
  split; [| exact Hkind].
  intros msg Heq. apply Hkind in Heq. discriminate.
Qed.

Example capsuleIsValid_nil_uuid_accepted :
  capsuleIsValid (mkCapsuleIn UUID.Nil "telegram" bprovider.Text "hello" "bob") = None.
Proof. reflexivity. Qed.
End CapsuleIsValid.

(** ** Content types at the back-end manager (first revision) *)
Section ContentTypeDispatch.
Import BackendV1 bprovider.

(** The dispatcher [Backend.message] does not call the provider for an
    image or an audio capsule and answers "not implemented". *)
Lemma message_not_implemented (p : Provider) (c : CapsuleIn) :
  CContentType c = Image \/ CContentType c = Audio ->
  message p c = ([], inr (NotImplemented (CContentType c +:+ " message handling"))).
Proof. unfold message. intros [-> | ->]; reflexivity. Qed.

(** The listening loop does not go through the dispatcher: whatever the
    content type of a valid capsule, the provider is called with its
    content. *)
Lemma receive_calls_provider yamlUnmarshal yamlMarshal (p : Provider)
    (data : string) (c : CapsuleIn) :
  unmarshalCapsule yamlUnmarshal data = inl c ->
  exists evs, receive yamlUnmarshal yamlMarshal p data = CallMessage (Content c) :: evs.
Proof. intros Hc. unfold receive. rewrite Hc. eauto. Qed.

(** C1, at an image capsule: [Start] hands the content of the capsule to
    the provider's [Message] and sends nothing back, whereas the
    dispatcher [message] would have answered "not implemented" without
    a call. *)
Theorem Start_calls_provider_for_image :
  Start (fun _ => inl Fixtures.imageCapsule) (fun _ => inl "") Fixtures.echoProvider
        [Received "data"]
    = [CallMessage "png-bytes"] /\
  message Fixtures.echoProvider Fixtures.imageCapsule
    = ([], inr (NotImplemented "Image message handling")).
Proof. split; reflexivity. Qed.
End ContentTypeDispatch.

(** ** The back-end manager (second revision) *)
Section BackendRoundTrip.
Import Backend bprovider.
Variable p : Provider.

Lemma collect_fields (outputs : list Output) : forall c : Capsule,
  capsule.Responses (collect c outputs) = capsule.Responses c ++ map OText outputs /\
  capsule.OriginalMessage (collect c outputs) = capsule.OriginalMessage c /\
  capsule.FrontendProvider (collect c outputs) = capsule.FrontendProvider c /\
  capsule.Content (collect c outputs) = capsule.Content c /\
  capsule.User (collect c outputs) = capsule.User c /\
  capsule.Error (collect c outputs) = capsule.Error c.
Proof.
  induction outputs as [| o outputs IH]; intros c; simpl.
  - rewrite app_nil_r. repeat split.
  - destruct (IH (capsule.appendResponse c (OText o))) as (HR & HO & HF & HC & HU & HE).
    unfold collect in *. rewrite HR, HO, HF, HC, HU, HE. simpl.
    rewrite <- app_assoc. repeat split.
Qed.

(** C2: a capsule arriving with no responses, answered by the provider
    with the outputs A then B, goes back on the shared channel with
    responses [A; B], its other fields as they were. *)
Theorem receive_success_responses (c : Capsule) (response : Response)
    (tA tB A B : string) :
  capsule.Responses c = [] ->
  Message p (capsule.Content c) = inl response ->
  Outputs response = [mkOutput tA A; mkOutput tB B] ->
  exists c',
    sends (receive p c) = [c'] /\
    capsule.Responses c' = [A; B] /\
    capsule.Error c' = capsule.Error c /\
    capsule.OriginalMessage c' = capsule.OriginalMessage c /\
    capsule.FrontendProvider c' = capsule.FrontendProvider c.
Proof.
  intros Hempty Hmsg Hout. unfold receive. rewrite Hmsg, Hout.
  eexists. split; [reflexivity |]. simpl. rewrite Hempty. repeat split.
Qed.

(** Whatever the outputs, they are flattened in the provider's order
    behind the responses the capsule came with. *)
Lemma receive_success_flatten (c : Capsule) (response : Response) :
  Message p (capsule.Content c) = inl response ->
  receive p c = [CallMessage (capsule.Content c);
                 SendCapsule (collect c (Outputs response))] /\
  capsule.Responses (collect c (Outputs response))
    = capsule.Responses c ++ map OText (Outputs response).
Proof.
  intros Hmsg. unfold receive. rewrite Hmsg. split; [reflexivity |].
  apply collect_fields.
Qed.

(** Each turn of the loop calls the provider once, with the content of the
    capsule, and puts one capsule back on the channel. *)
Lemma receive_one_call_one_send (c : Capsule) :
  calls (receive p c) = [capsule.Content c] /\ length (sends (receive p c)) = 1.
Proof.
  unfold receive. destruct (Message p (capsule.Content c)); split; reflexivity.
Qed.

(** C3: when the provider's call fails, the turn of the loop sends
    exactly one capsule, the one received with the error attached and
    nothing else changed, so its responses are still empty; the loop then
    goes on with the next capsule. *)
Theorem receive_failure_attaches_error (c : Capsule) (err : error) :
  Message p (capsule.Content c) = inr err ->
  exists c',
    sends (receive p c) = [c'] /\
    capsule.Error c' = Some err /\
    capsule.Responses c' = capsule.Responses c /\
    (capsule.Responses c = [] -> capsule.Responses c' = []) /\
    capsule.OriginalMessage c' = capsule.OriginalMessage c /\
    capsule.FrontendProvider c' = capsule.FrontendProvider c /\
    capsule.Content c' = capsule.Content c /\
    capsule.User c' = capsule.User c /\
    forall rest,
      Start p (Received c :: rest)
        = [CallMessage (capsule.Content c); SendCapsule c'] ++ Start p rest.
Proof.
  intros Hmsg. exists (capsule.setError c err).
  unfold receive, Start. fold (Start p).
  unfold receive. rewrite Hmsg. simpl. repeat split. auto.
Qed.
End BackendRoundTrip.

(** ** The pending-message table of the telegram binding *)
Section PendingMessages.
Import telegram.

Lemma scanPending_spec (u : UUID) (pending : list message) : forall i,
  match scanPending u pending i with
  | Some (j, m) =>
      exists k, j = i + k /\ pending !! k = Some m /\ uuid m = u /\
                Forall (fun m' => uuid m' <> u) (take k pending)
  | None => Forall (fun m' => uuid m' <> u) pending
  end.
Proof.
  induction pending as [| m0 rest IH]; intros i; simpl.
  - constructor.
  - case_bool_decide as Hu.
    + exists 0. rewrite Nat.add_0_r. repeat split; auto.
    + specialize (IH (S i)). destruct (scanPending u rest (S i)) as [[j m] |].
      * destruct IH as (k & -> & Hk & Hm & Hbefore).
        exists (S k). repeat split; auto with lia.
        simpl. constructor; auto.
      * constructor; auto.
Qed.

Lemma scanPending_miss (u : UUID) (pending : list message) (i : nat) :
  Forall (fun m' => uuid m' <> u) pending -> scanPending u pending i = None.
Proof.
  revert i. induction pending as [| m0 rest IH]; intros i Hall; simpl; [reflexivity |].
  inversion Hall as [| ? ? Hm0 Hrest]; subst.
  rewrite bool_decide_eq_false_2 by assumption. auto.
Qed.

Lemma findPendingMessage_miss (t : Telegram) (u : UUID) :
  Forall (fun m' => uuid m' <> u) (pendingMessages t) ->
  findPendingMessage t u = (t, inr (missError t u)).
Proof.
  intros Hall. unfold findPendingMessage, missError.
  destruct (length (pendingMessages t) =? 0)%nat; [reflexivity |].
  rewrite scanPending_miss by assumption. reflexivity.
Qed.

Lemma findPendingMessage_hit (t t' : Telegram) (u : UUID) (m : message) :
  findPendingMessage t u = (t', inl m) ->
  exists k, pendingMessages t !! k = Some m /\ uuid m = u /\
            t' = withPending t (take k (pendingMessages t) ++ drop (S k) (pendingMessages t)).
Proof.
  unfold findPendingMessage.
  destruct (length (pendingMessages t) =? 0)%nat; [discriminate |].
  pose proof (scanPending_spec u (pendingMessages t) 0) as Hscan.
  destruct (scanPending u (pendingMessages t) 0) as [[j m'] |]; [| discriminate].
  destruct Hscan as (k & -> & Hk & Hm & _).
  intros [= <- <-]. exists k. auto.
Qed.

Lemma removed_is_absent (u : UUID) (pending : list message) (k : nat) (m : message) :
  NoDup (uuid <$> pending) -> pending !! k = Some m -> uuid m = u ->
  Forall (fun m' => uuid m' <> u) (take k pending ++ drop (S k) pending).
Proof.
  intros Hnodup Hk Hm.
  rewrite <- (take_drop_middle pending k m Hk) in Hnodup.
  rewrite fmap_app, fmap_cons in Hnodup.
  apply NoDup_app in Hnodup as (_ & Hdisj & Hafter).
  apply NoDup_cons in Hafter as [Hnotin _].
  apply Forall_app. split; apply Forall_forall; intros m' Hin Heq.
  - apply (Hdisj (uuid m')); [apply list_elem_of_fmap; eauto |].
    rewrite Heq, <- Hm. left.
  - apply Hnotin. rewrite Hm, <- Heq. apply list_elem_of_fmap; eauto.
Qed.

(** C4, as the code has it: with identifiers recorded at most once, a
    lookup that finds its entry removes it, and a second lookup for the
    same identifier returns an error and not the entry: "not found"
    while other entries are pending, "not provisioned" once the table
    is empty.  A recorded identifier is found; one that was never
    recorded gets the same error and leaves the table as it is. *)
Theorem findPendingMessage_consumes (t : Telegram) (u : UUID) :
  NoDup (uuid <$> pendingMessages t) ->
  (forall t' m, findPendingMessage t u = (t', inl m) ->
     uuid m = u /\ m ∈ pendingMessages t /\
     Forall (fun m' => uuid m' <> u) (pendingMessages t') /\
     length (pendingMessages t) = S (length (pendingMessages t')) /\
     findPendingMessage t' u = (t', inr (missError t' u))) /\
  ((exists m, m ∈ pendingMessages t /\ uuid m = u) ->
     exists t' m, findPendingMessage t u = (t', inl m)) /\
  (Forall (fun m' => uuid m' <> u) (pendingMessages t) ->
     findPendingMessage t u = (t, inr (missError t u))).
Proof.
  intros Hnodup. split; [| split].
  - intros t' m Hfind.
    destruct (findPendingMessage_hit _ _ _ _ Hfind) as (k & Hk & Hm & ->).
    pose proof (removed_is_absent u _ k m Hnodup Hk Hm) as Habsent.
    split; [exact Hm |]. split; [eapply list_elem_of_lookup_2; eauto |].
    split; [exact Habsent |]. split.
    + simpl. rewrite <- (take_drop_middle _ k m Hk) at 1.
      rewrite !length_app. simpl. lia.
    + apply findPendingMessage_miss. exact Habsent.
  - intros (m & Hin & Hm). unfold findPendingMessage.
    destruct (pendingMessages t) as [| m0 rest] eqn:Hpending.
    { inversion Hin. }
    simpl length. simpl Nat.eqb. cbv iota.
    pose proof (scanPending_spec u (m0 :: rest) 0) as Hscan.
    destruct (scanPending u (m0 :: rest) 0) as [[j m'] |]; [eauto |].
    exfalso. rewrite Forall_forall in Hscan. exact (Hscan m Hin Hm).
  - apply findPendingMessage_miss.
Qed.

(** With a single pending entry, the second lookup of its identifier
    answers "pending messages not provisioned", which is not a "not
    found" error. *)
Lemma second_lookup_not_provisioned :
  exists t',
    findPendingMessage Fixtures.onePending 7%N = (t', inl Fixtures.pendingHello) /\
    findPendingMessage t' 7%N = (t', inr (NotProvisioned "pending messages")) /\
    IsNotFound (NotProvisioned "pending messages") = false.
Proof. eexists. repeat split. Qed.

Lemma findPendingMessage_consumes_witness :
  let t' := withPending Fixtures.twoPending [Fixtures.pendingBye] in
  findPendingMessage Fixtures.twoPending 7%N = (t', inl Fixtures.pendingHello) /\
  findPendingMessage t' 7%N
    = (t', inr (NotFound "message (uuid: 00000000-0000-0000-0000-000000000007)")).
Proof.
  assert (Hnodup : NoDup (uuid <$> pendingMessages Fixtures.twoPending)).
  { simpl. apply NoDup_cons_2; [| apply NoDup_singleton].
    intros Hin. apply list_elem_of_singleton in Hin. discriminate Hin. }
  destruct (findPendingMessage_consumes Fixtures.twoPending 7%N Hnodup) as (Hhit & _ & _).
  split; [reflexivity |].
  destruct (Hhit _ _ eq_refl) as (_ & _ & _ & _ & Hsecond). exact Hsecond.
Defined.
End PendingMessages.

(** ** Delivery by the telegram binding *)
Section TelegramDelivery.
Import fprovider telegram.

(** C6: the reply capsule's identifier being pending for user [user m],
    a capsule carrying an error of non-empty text makes the binding send
    that user the one system-log message built from the error text, and
    none of the responses; a capsule without error has its responses
    sent to that user in order. *)
Theorem Message_error_or_responses (t t' : Telegram) (c : Capsule) (m : message) :
  findPendingMessage t (capsule.OriginalMessage c) = (t', inl m) ->
  (forall err, capsule.Error c = Some err -> Error err <> "" ->
     Message t c = (t', [BotSend (user m) (SystemLog (Error err) ErrorStatus)], None)) /\
  (capsule.Error c = None ->
     Message t c = (t', map (BotSend (user m)) (capsule.Responses c), None)).
Proof.
  intros Hfind. split.
  - intros err Herr Htext. unfold Message, sendErrorMessage. rewrite Herr.
    destruct (Error err) as [| a s] eqn:Htxt; [congruence |].
    simpl. rewrite Hfind. reflexivity.
  - intros Hnone. unfold Message, sendTextMessage. rewrite Hnone, Hfind. reflexivity.
Qed.

Lemma Message_error_or_responses_witness :
  Message Fixtures.onePending Fixtures.errorCapsule
    = (withPending Fixtures.onePending [],
       [BotSend Fixtures.bob "[SYSTEM]Error: watson unreachable"], None) /\
  Message Fixtures.onePending Fixtures.replyCapsule
    = (withPending Fixtures.onePending [],
       [BotSend Fixtures.bob "hi bob"; BotSend Fixtures.bob "how are you?"], None).
Proof.
  split.
  - apply (proj1 (Message_error_or_responses Fixtures.onePending
                    (withPending Fixtures.onePending []) Fixtures.errorCapsule
                    Fixtures.pendingHello eq_refl)
             (External "watson unreachable") eq_refl).
    discriminate.
  - apply (proj2 (Message_error_or_responses Fixtures.onePending
                    (withPending Fixtures.onePending []) Fixtures.replyCapsule
                    Fixtures.pendingHello eq_refl) eq_refl).
Defined.

(** When the identifier is not pending, nothing is sent and the miss is
    returned. *)
Lemma Message_miss (t : Telegram) (c : Capsule) :
  Forall (fun m' => uuid m' <> capsule.OriginalMessage c) (pendingMessages t) ->
  Message t c = (t, [], Some (missError t (capsule.OriginalMessage c))).
Proof.
  intros Hall. unfold Message, sendErrorMessage, sendTextMessage.
  rewrite (findPendingMessage_miss _ _ Hall). repeat case_match; reflexivity.
Qed.

Lemma userIsValid_true (users : list User) (sender : TbUser) :
  userIsValid users sender = true <->
  exists u, u ∈ users /\ Name u = Username sender /\ ID u = TbID sender.
Proof.
  induction users as [| u0 rest IH]; simpl.
  - split; [discriminate |]. intros (u & Hin & _). inversion Hin.
  - destruct (String.eqb (Name u0) (Username sender) && (ID u0 =? TbID sender)%Z) eqn:Hmatch.
    + split; [| reflexivity]. intros _.
      apply andb_true_iff in Hmatch as [Hname Hid].
      exists u0. split; [left |].
      split; [apply String.eqb_eq, Hname | apply Z.eqb_eq, Hid].
    + rewrite IH. split.
      * intros (u & Hin & Hu). exists u. split; [right; exact Hin | exact Hu].
      * intros (u & Hin & Hname & Hid).
        apply elem_of_cons in Hin as [-> | Hin]; [| eauto].
        exfalso. apply andb_false_iff in Hmatch as [Hf | Hf].
        -- apply String.eqb_neq in Hf. contradiction.
        -- apply Z.eqb_neq in Hf. contradiction.
Qed.

(** C9: a text message whose sender matches no authorized user on both
    identifier and user name leaves the binding as it was (the pending
    list included), forwards nothing to the manager and sends no reply. *)
Theorem textMessageHandler_unauthorized (t : Telegram) (msg : TbMessage)
    (newRandom : UUID + error) :
  ~ (exists u, u ∈ TAuthorizedUsers t /\
               Name u = Username (Sender msg) /\ ID u = TbID (Sender msg)) ->
  exists effects,
    textMessageHandler t msg newRandom = (t, effects) /\
    forwarded effects = [] /\ replies effects = [].
Proof.
  intros Hno. unfold textMessageHandler.
  destruct (userIsValid (TAuthorizedUsers t) (Sender msg)) eqn:Hvalid.
  - exfalso. apply Hno, userIsValid_true, Hvalid.
  - simpl. eexists. repeat split.
Qed.

Lemma textMessageHandler_unauthorized_witness :
  exists effects,
    textMessageHandler Fixtures.onePending
      (mkTbMessage (mkTbUser 42 "eve") "let me in") (inl 11%N)
      = (Fixtures.onePending, effects) /\
    forwarded effects = [] /\ replies effects = [].
Proof.
  apply textMessageHandler_unauthorized.
  intros (u & Hin & Hname & _).
  apply list_elem_of_singleton in Hin. subst u. discriminate Hname.
Defined.

(** An authorized sender, for comparison: the entry is recorded and the
    capsule forwarded. *)
Example textMessageHandler_authorized :
  textMessageHandler Fixtures.onePending
    (mkTbMessage Fixtures.bob "bye") (inl 9%N)
    = (Fixtures.twoPending,
       [LogDebug "User message received";
        UserInput (mkCapsuleProvider 9%N "telegram" "bye" "bob")]).
Proof. reflexivity. Qed.
End TelegramDelivery.

(** ** The back-end round trip on concrete providers *)
Section BackendExamples.
Import Backend bprovider.

Lemma receive_success_responses_witness :
  exists c',
    sends (receive Fixtures.abProvider Fixtures.helloCapsule) = [c'] /\
    capsule.Responses c' = ["A"; "B"] /\
    capsule.Error c' = None /\
    capsule.OriginalMessage c' = 7%N /\
    capsule.FrontendProvider c' = "telegram".
Proof.
  apply (receive_success_responses Fixtures.abProvider Fixtures.helloCapsule
           (mkResponse 200 [mkOutput "text" "A"; mkOutput "text" "B"] [])
           "text" "text" "A" "B"); reflexivity.
Defined.

Lemma receive_failure_attaches_error_witness :
  exists c',
    sends (receive Fixtures.failingProvider Fixtures.helloCapsule) = [c'] /\
    capsule.Error c' = Some (External "watson unreachable") /\
    capsule.Responses c' = [].
Proof.
  destruct (receive_failure_attaches_error Fixtures.failingProvider
              Fixtures.helloCapsule (External "watson unreachable") eq_refl)
    as (c' & Hsends & Herr & Hresp & _).
  exists c'. split; [exact Hsends |]. split; [exact Herr | exact Hresp].
Defined.

(** Every capsule the front-end manager builds for the back-end arrives
    with no responses and no error. *)
Lemma sendToBackend_fresh (userInput : fprovider.CapsuleProvider) :
  capsule.Responses (Frontend.sendToBackend userInput) = [] /\
  capsule.Error (Frontend.sendToBackend userInput) = None.
Proof. split; reflexivity. Qed.

Lemma loadProvider_backend (providerCollection : gmap string Prototype)
    (providerConfig : Config) :
  match loadProvider providerCollection providerConfig with
  | inl p =>
      exists proto, providerCollection !! Label providerConfig = Some proto /\
                    proto providerConfig = inl p
  | inr err =>
      (providerCollection !! Label providerConfig = None /\
       err = NotFound ("provider called `" +:+ Label providerConfig +:+ "`")) \/
      (exists proto cause,
         providerCollection !! Label providerConfig = Some proto /\
         proto providerConfig = inr cause /\
         err = Annotate cause ("loading provider " +:+ Label providerConfig))
  end.
Proof.
  unfold loadProvider.
  destruct (providerCollection !! Label providerConfig) as [proto |] eqn:Hlookup.
  - destruct (proto providerConfig) as [p | cause] eqn:Hinit; eauto 10.
  - auto.
Qed.
End BackendExamples.

(** ** Dispatch of a returned capsule by the front-end manager *)
Section Dispatch.
Import fprovider Frontend.
Context {P E : Type} `{!Provider P E}.

Lemma message_no_match (c : Capsule) (ps : list P) :
  Forall (notFor c) ps ->
  message ps c
    = (ps, [], Some (NotFound ("frontend provider " +:+ capsule.FrontendProvider c))).
Proof.
  induction 1 as [| q ps Hq _ IH]; simpl; [reflexivity |].
  destruct (String.eqb_spec (capsule.FrontendProvider c) (GetLabel q)) as [Heq | _].
  - exfalso. apply Hq. symmetry. exact Heq.
  - rewrite IH. reflexivity.
Qed.

Lemma message_first_match (c : Capsule) (before : list P) (p : P) (after : list P) :
  Forall (notFor c) before ->
  GetLabel p = capsule.FrontendProvider c ->
  message (before ++ p :: after) c
    = (before ++ (Message p c).1.1 :: after,
       CallMessage (GetLabel p) c :: map Effect (Message p c).1.2,
       (Message p c).2).
Proof.
  intros Hbefore Hp. induction Hbefore as [| q before Hq _ IH]; simpl.
  - rewrite Hp, String.eqb_refl. destruct (Message p c) as [[p' effects] r]. reflexivity.
  - destruct (String.eqb_spec (capsule.FrontendProvider c) (GetLabel q)) as [Heq | _].
    + exfalso. apply Hq. symmetry. exact Heq.
    + rewrite IH. reflexivity.
Qed.

Lemma message_match_calls (c : Capsule) (ps : list P) :
  ~ Forall (notFor c) ps -> (message ps c).1.2 <> [].
Proof.
  induction ps as [| q ps IH]; intros Hsome; simpl.
  - exfalso. apply Hsome. constructor.
  - destruct (String.eqb_spec (capsule.FrontendProvider c) (GetLabel q)) as [Heq | Hne].
    + destruct (Message q c) as [[p' effects] r]. discriminate.
    + destruct (message ps c) as [[rest' evs] r] eqn:Hrest. simpl in *.
      apply IH. intros Hall. apply Hsome. constructor; [| exact Hall].
      intros Heq. apply Hne. symmetry. exact Heq.
Qed.

Lemma message_match_delivered (c : Capsule) (ps : list P) :
  ~ Forall (notFor c) ps -> delivered (message ps c).1.2 <> [].
Proof.
  induction ps as [| q ps IH]; intros Hsome; simpl.
  - exfalso. apply Hsome. constructor.
  - destruct (String.eqb_spec (capsule.FrontendProvider c) (GetLabel q)) as [Heq | Hne].
    + destruct (Message q c) as [[p' effects] r]. discriminate.
    + destruct (message ps c) as [[rest' evs] r] eqn:Hrest. simpl in *.
      apply IH. intros Hall. apply Hsome. constructor; [| exact Hall].
      intros Heq. apply Hne. symmetry. exact Heq.
Qed.

(** C7, as the code has it: a returned capsule is delivered through
    [Message] of the first activated provider whose label is the capsule's
    [FrontendProvider], and of no other, and what that call returns,
    error or not, is what the manager returns.  When no activated
    provider has that label the manager calls no provider and returns
    "frontend provider <label> not found"; a provider is called exactly
    when some activated provider has the label.  After that failure,
    logged, the dispatch loop goes on with its next input and the same
    providers. *)
Theorem message_dispatch (ps : list P) (c : Capsule) :
  (forall before p after,
     ps = before ++ p :: after ->
     Forall (notFor c) before ->
     GetLabel p = capsule.FrontendProvider c ->
     message ps c
       = (before ++ (Message p c).1.1 :: after,
          CallMessage (GetLabel p) c :: map Effect (Message p c).1.2,
          (Message p c).2)) /\
  (Forall (notFor c) ps <->
     message ps c
       = (ps, [], Some (NotFound ("frontend provider " +:+ capsule.FrontendProvider c)))) /\
  (Forall (notFor c) ps <-> delivered (message ps c).1.2 = []) /\
  (Forall (notFor c) ps ->
     forall rest,
       listen ps (FromCapsule (Received c) :: rest)
         = ((listen ps rest).1,
            LogError (NotFound ("frontend provider " +:+ capsule.FrontendProvider c))
              :: (listen ps rest).2)).
Proof.
  split; [| split; [| split]].
  - intros before p after -> Hbefore Hp. apply message_first_match; assumption.
  - split; [apply message_no_match |].
    intros Hmsg. destruct (Forall_dec (notFor c) ps) as [Hall | Hsome]; [exact Hall |].
    exfalso. apply (message_match_calls c ps Hsome). rewrite Hmsg. reflexivity.
  - split.
    + intros Hall. rewrite (message_no_match c ps Hall). reflexivity.
    + intros Hnone. destruct (Forall_dec (notFor c) ps) as [Hall | Hsome]; [exact Hall |].
      exfalso. exact (message_match_delivered c ps Hsome Hnone).
  - intros Hall rest. simpl. rewrite (message_no_match c ps Hall).
    destruct (listen ps rest) as [ps' evs]. reflexivity.
Qed.
End Dispatch.

Section DispatchExamples.
Import fprovider Frontend.

Lemma message_dispatch_witness :
  message [Fixtures.onePending] Fixtures.replyCapsule
    = ([telegram.withPending Fixtures.onePending []],
       [CallMessage "telegram" Fixtures.replyCapsule;
        Effect (telegram.BotSend Fixtures.bob "hi bob");
        Effect (telegram.BotSend Fixtures.bob "how are you?")],
       None) /\
  listen [Fixtures.onePending]
         [FromCapsule (Received Fixtures.strayCapsule);
          FromCapsule (Received Fixtures.replyCapsule)]
    = ([telegram.withPending Fixtures.onePending []],
       [LogError (NotFound "frontend provider messenger");
        CallMessage "telegram" Fixtures.replyCapsule;
        Effect (telegram.BotSend Fixtures.bob "hi bob");
        Effect (telegram.BotSend Fixtures.bob "how are you?")]).
Proof.
  assert (Hstray : Forall (notFor Fixtures.strayCapsule) [Fixtures.onePending]).
  { constructor; [| constructor]. discriminate. }
  split.
  - exact (proj1 (message_dispatch [Fixtures.onePending] Fixtures.replyCapsule)
             [] Fixtures.onePending [] eq_refl (Forall_nil_2 _) eq_refl).
  - exact (proj2 (proj2 (proj2
             (message_dispatch [Fixtures.onePending] Fixtures.strayCapsule)))
             Hstray [FromCapsule (Received Fixtures.replyCapsule)]).
Defined.

(** With two telegram bindings activated, the reply to a message of the
    second one goes to the first, whose label matches; its lookup misses,
    and the manager returns a "not found" error although an activated
    provider has the capsule's label. *)
Lemma message_not_found_despite_match :
  message [Fixtures.onePending; Fixtures.byePending] Fixtures.byeReply
    = ([Fixtures.onePending; Fixtures.byePending],
       [CallMessage "telegram" Fixtures.byeReply],
       Some (NotFound "message (uuid: 00000000-0000-0000-0000-000000000009)")) /\
  IsNotFound (NotFound "message (uuid: 00000000-0000-0000-0000-000000000009)") = true /\
  GetLabel Fixtures.onePending = capsule.FrontendProvider Fixtures.byeReply.
Proof. repeat split. Qed.
End DispatchExamples.

(** ** Initialization of the front-end manager *)
Section Initialization.
Import fprovider Frontend.
Context {P E : Type} `{!Provider P E}.
Variable providerCollection : gmap string (Config -> P + error).

Lemma loadProviderFrom_spec (providerConfig : list ProviderConfig) :
  forall providers,
    match loadProviderFrom providerCollection providerConfig providers with
    | inl loaded =>
        exists news,
          loaded = providers ++ news /\
          Forall (fun pc => is_Some (providerCollection !! Label pc)) providerConfig /\
          Forall2 (resolved providerCollection)
                  (List.filter IsActivated providerConfig) news
    | inr err =>
        exists before pc after,
          providerConfig = before ++ pc :: after /\
          (exists loaded, loadProviderFrom providerCollection before providers = inl loaded) /\
          failsWith providerCollection pc err
    end.
Proof.
  induction providerConfig as [| pc rest IH]; intros providers; simpl.
  - exists []. rewrite app_nil_r. repeat split; constructor.
  - destruct (providerCollection !! Label pc) as [proto |] eqn:Hlookup.
    + destruct (IsActivated pc) eqn:Hact.
      * destruct (proto (configFor pc)) as [p' | cause] eqn:Hinit.
        -- specialize (IH (providers ++ [p'])).
           destruct (loadProviderFrom providerCollection rest (providers ++ [p']))
             as [loaded | err].
           ++ destruct IH as (news & -> & Hall & Hres).
              exists (p' :: news). rewrite <- app_assoc. split; [reflexivity |].
              split; [constructor; eauto |].
              constructor; [| exact Hres]. exists proto. auto.
           ++ destruct IH as (before & pc' & after & -> & [loaded Hbefore] & Hfail).
              exists (pc :: before), pc', after. split; [reflexivity |].
              split; [| exact Hfail].
              exists loaded. simpl. rewrite Hlookup, Hact, Hinit. exact Hbefore.
        -- exists [], pc, rest. split; [reflexivity |].
           split; [exists providers; reflexivity |].
           right. exists proto, cause. auto.
      * specialize (IH providers).
        destruct (loadProviderFrom providerCollection rest providers) as [loaded | err].
        -- destruct IH as (news & -> & Hall & Hres).
           exists news. split; [reflexivity |].
           split; [constructor; eauto | exact Hres].
        -- destruct IH as (before & pc' & after & -> & [loaded Hbefore] & Hfail).
           exists (pc :: before), pc', after. split; [reflexivity |].
           split; [| exact Hfail].
           exists loaded. simpl. rewrite Hlookup, Hact. exact Hbefore.
    + exists [], pc, rest. split; [reflexivity |].
      split; [exists providers; reflexivity |].
      left. auto.
Qed.

(** C8: for every list of provider configurations, [New] returns either
    a manager or an error.  A manager is returned only when every
    configured label is in the registry, and its providers are the
    initialized instances of the activated entries, in order, all of
    them.  An error is the annotated error of the first entry that
    fails, every entry before it having loaded: "provider not found" for
    a label absent from the registry, the provider's own error wrapped
    in "loading provider" when its initialization fails. *)
Theorem New_all_or_first_error (providerConfig : list ProviderConfig) :
  match New providerCollection (inl providerConfig) with
  | inl f =>
      Forall (fun pc => is_Some (providerCollection !! Label pc)) providerConfig /\
      Forall2 (resolved providerCollection)
              (List.filter IsActivated providerConfig) (activatedProviders f)
  | inr e =>
      exists before pc after err,
        providerConfig = before ++ pc :: after /\
        (exists loaded, loadProvider providerCollection before = inl loaded) /\
        failsWith providerCollection pc err /\
        e = Annotate err "initiliazing frontend"
  end.
Proof.
  unfold New, loadProvider.
  pose proof (loadProviderFrom_spec providerConfig []) as Hspec.
  destruct (loadProviderFrom providerCollection providerConfig []) as [loaded | err].
  - destruct Hspec as (news & -> & Hall & Hres). simpl. auto.
  - destruct Hspec as (before & pc & after & -> & Hbefore & Hfail).
    exists before, pc, after, err. auto.
Qed.

(** An unknown label is an error even on an entry that is not
    activated. *)
Lemma New_unknown_label (providerConfig : list ProviderConfig) (pc : ProviderConfig) :
  pc ∈ providerConfig -> providerCollection !! Label pc = None ->
  exists e, New providerCollection (inl providerConfig) = inr e.
Proof.
  intros Hin Hnone. unfold New, loadProvider.
  pose proof (loadProviderFrom_spec providerConfig []) as Hspec.
  destruct (loadProviderFrom providerCollection providerConfig []) as [loaded | err];
    [| eauto].
  destruct Hspec as (news & _ & Hall & _). rewrite Forall_forall in Hall.
  destruct (Hall pc Hin) as [proto Hsome]. congruence.
Qed.
End Initialization.

Section InitializationExamples.
Import fprovider Frontend.

Example New_telegram :
  New Fixtures.registry (inl [Fixtures.telegramConfig])
    = inl (mkFrontend [telegram.mkTelegram [mkUser 42 "bob"] []]).
Proof. reflexivity. Qed.

Example New_unknown :
  New Fixtures.registry
      (inl [Fixtures.telegramConfig; mkProviderConfig "messenger" false "" []])
    = inr (Annotate (NotFound "provider called `messenger`") "initiliazing frontend").
Proof. reflexivity. Qed.

Example New_init_failure :
  New Fixtures.registry
      (inl [mkProviderConfig "telegram" true "" []; Fixtures.telegramConfig])
    = inr (Annotate
             (Annotate (Annotate (External "telegram: token required")
                                 "initializing telegram")
                       "loading provider telegram")
             "initiliazing frontend").
Proof. reflexivity. Qed.
End InitializationExamples.

(** ** [strings.Split] *)
Section SplitLemmas.
Import strings.
Variable sep : ascii.

Lemma Split_nonempty (s : string) : Split s sep <> [].
Proof.
  destruct s as [| c s]; simpl; [discriminate |].
  destruct (Ascii.eqb c sep); [discriminate |].
  destruct (Split s sep); discriminate.
Qed.

Lemma Split_length (s : string) : length (Split s sep) = S (Count s sep).
Proof.
  induction s as [| c s IH]; simpl; [reflexivity |].
  destruct (Ascii.eqb c sep); simpl; [rewrite IH; reflexivity |].
  destruct (Split s sep) as [| piece pieces] eqn:Hsplit; simpl in *; lia.
Qed.

Lemma Split_Join (s : string) : Join (Split s sep) sep = s.
Proof.
  induction s as [| c s IH]; simpl; [reflexivity |].
  destruct (Ascii.eqb_spec c sep) as [-> | _].
  - pose proof (Split_nonempty s) as Hne.
    destruct (Split s sep) as [| piece pieces]; [congruence |].
    simpl in *. rewrite IH. reflexivity.
  - pose proof (Split_nonempty s) as Hne.
    destruct (Split s sep) as [| piece pieces]; [congruence |].
    destruct pieces as [| piece' pieces]; simpl in *; rewrite <- IH; reflexivity.
Qed.

Lemma Split_pieces (s : string) :
  Forall (fun piece => Count piece sep = 0) (Split s sep).
Proof.
  induction s as [| c s IH]; simpl.
  - repeat constructor.
  - destruct (Ascii.eqb c sep) eqn:Hc.
    + constructor; [reflexivity | exact IH].
    + destruct (Split s sep) as [| piece pieces].
      * repeat constructor. simpl. rewrite Hc. reflexivity.
      * inversion IH as [| ? ? Hpiece Hpieces]; subst.
        constructor; [| exact Hpieces]. simpl. rewrite Hc. exact Hpiece.
Qed.
End SplitLemmas.

(** ** Conversion of a watson response *)
Section WatsonConversion.
Import watson bprovider.

Lemma fold_left_snoc {A B : Type} (f : A -> B) (l : list A) : forall acc : list B,
  fold_left (fun acc a => acc ++ [f a]) l acc = acc ++ map f l.
Proof.
  induction l as [| a l IH]; intros acc; simpl.
  - rewrite app_nil_r. reflexivity.
  - rewrite IH, <- app_assoc. reflexivity.
Qed.

Lemma appendLines_linesOf (outputs : list Output) (generic : Generic) :
  appendLines outputs generic = outputs ++ linesOf generic.
Proof. unfold appendLines, linesOf. apply fold_left_snoc. Qed.

Lemma convertGenerics_outputsSpec (generics : list Generic) : forall outputs,
  convertGenerics (map Some generics) outputs
    = Returned (outputs ++ outputsSpec generics).
Proof.
  induction generics as [| g generics IH]; intros outputs; simpl.
  - rewrite app_nil_r. reflexivity.
  - rewrite IH, appendLines_linesOf, <- app_assoc. reflexivity.
Qed.

Lemma convertIntents_map (wintents : list WIntent) : forall intents,
  convertIntents (map Some wintents) intents
    = Returned (intents ++
                map (fun i => mkIntent (WIntent_Intent i) (WIntent_Confidence i)) wintents).
Proof.
  induction wintents as [| i wintents IH]; intros intents; simpl.
  - rewrite app_nil_r. reflexivity.
  - rewrite IH, <- app_assoc. reflexivity.
Qed.

Lemma linesOf_lines (generic : Generic) :
  length (linesOf generic) = S (strings.Count (GText generic) strings.newline) /\
  Forall (fun o => ResponseType o = GResponseType generic) (linesOf generic) /\
  strings.Join (map OText (linesOf generic)) strings.newline = GText generic.
Proof.
  unfold linesOf. split; [| split].
  - rewrite length_map. apply Split_length.
  - apply Forall_forall. intros o Hin.
    apply list_elem_of_In, in_map_iff in Hin as (line & <- & _). reflexivity.
  - rewrite map_map. simpl. rewrite map_id. apply Split_Join.
Qed.

(** C10: on a well-formed response, [convertResponse] returns a
    response whose outputs are the in-order concatenation, over the
    generic items, of the lines of each item's text; the lines of an
    item carry its response type, are one more than the newlines of its
    text, and joined by newlines give the text back. *)
Theorem convertResponse_outputs (jsonUnmarshal : string -> ResponseWatson + error)
    (response : string) (w : ResponseWatson)
    (generics : list Generic) (wintents : list WIntent) :
  jsonUnmarshal response = inl w ->
  wellFormed w generics wintents ->
  exists r,
    convertResponse jsonUnmarshal response = Returned (inl r) /\
    Outputs r = outputsSpec generics /\
    StatusCode r = WStatusCode w /\
    (forall g, generics = [g] ->
       length (Outputs r) = S (strings.Count (GText g) strings.newline)) /\
    (forall g, g ∈ generics ->
       length (linesOf g) = S (strings.Count (GText g) strings.newline) /\
       Forall (fun o => ResponseType o = GResponseType g) (linesOf g) /\
       strings.Join (map OText (linesOf g)) strings.newline = GText g).
Proof.
  intros Hjson (result & output & Hresult & Houtput & Hgenerics & Hintents).
  unfold convertResponse.
  rewrite Hjson, Hresult, Houtput, Hgenerics, Hintents.
  rewrite convertGenerics_outputsSpec, convertIntents_map. simpl.
  eexists. split; [reflexivity |]. simpl.
  split; [reflexivity |]. split; [reflexivity |]. split.
  - intros g ->. unfold outputsSpec. simpl. rewrite app_nil_r.
    apply linesOf_lines.
  - intros g _. apply linesOf_lines.
Qed.

Lemma convertResponse_outputs_witness :
  exists r,
    convertResponse (fun _ => inl Fixtures.twoLines) "{}" = Returned (inl r) /\
    Outputs r = [mkOutput "text" "hello"; mkOutput "text" "world";
                 mkOutput "text" "bye"].
Proof.
  destruct (convertResponse_outputs (fun _ => inl Fixtures.twoLines) "{}"
              Fixtures.twoLines
              [mkGeneric "text" ("hello" +:+ String strings.newline "world");
               mkGeneric "text" "bye"]
              [mkWIntent "greeting" 1065353216%N] eq_refl)
    as (r & Hr & Hout & _).
  - eexists _, _. repeat split.
  - exists r. split; [exact Hr | exact Hout].
Defined.

(** A nil [Result] makes the call panic. *)
Example convertResponse_nil_result :
  convertResponse (fun _ => inl (mkResponseWatson 200 None)) "{}" = Panicked.
Proof. reflexivity. Qed.
End WatsonConversion.

(** * Further properties of the sources *)

(** ** Validity of a capsule at the back-end (first revision) *)
Section CapsuleValidity.
Import BackendV1 bprovider.

Lemma length_zero_iff_empty (s : string) : (String.length s =? 0)%nat = true <-> s = "".
Proof. destruct s; simpl; split; intros H; congruence. Qed.

Lemma length_zero_false (s : string) : (String.length s =? 0)%nat = false <-> s <> "".
Proof. destruct s; simpl; split; intros H; congruence. Qed.

(** X1: [capsuleIsValid] accepts a capsule exactly when its content, its
    content type, its provider label and its user are all non-empty,
    whatever its identifier; an empty content is reported as "not
    provisioned", and with a content present an empty content type,
    label or user as "not assigned". *)
Theorem capsuleIsValid_accepts_iff (c : CapsuleIn) :
  (capsuleIsValid c = None <->
     Content c <> "" /\ CContentType c <> "" /\ ProviderLabel c <> "" /\ User c <> "") /\
  (Content c = "" -> exists msg, capsuleIsValid c = Some (NotProvisioned msg)) /\
  (Content c <> "" -> CContentType c = "" \/ ProviderLabel c = "" \/ User c = "" ->
     exists msg, capsuleIsValid c = Some (NotAssigned msg)).
Proof.
  unfold capsuleIsValid. rewrite uuidNotValid_false.
  destruct (String.length (Content c) =? 0)%nat eqn:Hc;
    [apply length_zero_iff_empty in Hc | apply length_zero_false in Hc].
  { split; [split; [discriminate | tauto] |]. split; [eauto | tauto]. }
  destruct (String.length (CContentType c) =? 0)%nat eqn:Ht;
    [apply length_zero_iff_empty in Ht | apply length_zero_false in Ht].
  { split; [split; [discriminate | tauto] |]. split; [tauto | eauto]. }
  destruct (String.length (ProviderLabel c) =? 0)%nat eqn:Hl;
    [apply length_zero_iff_empty in Hl | apply length_zero_false in Hl].
  { split; [split; [discriminate | tauto] |]. split; [tauto | eauto]. }
  destruct (String.length (User c) =? 0)%nat eqn:Hu;
    [apply length_zero_iff_empty in Hu | apply length_zero_false in Hu].
  { split; [split; [discriminate | tauto] |]. split; [tauto | eauto]. }
  split; [split; [tauto | reflexivity] |]. split; tauto.
Qed.

Lemma capsuleIsValid_accepts_iff_witness :
  (exists msg, capsuleIsValid (mkCapsuleIn 7%N "telegram" Text "" "bob")
               = Some (NotProvisioned msg)) /\
  (exists msg, capsuleIsValid (mkCapsuleIn 7%N "telegram" Text "hello" "")
               = Some (NotAssigned msg)) /\
  capsuleIsValid (mkCapsuleIn 7%N "telegram" Text "hello" "bob") = None.
Proof.
  split; [| split].
  - apply (proj1 (proj2 (capsuleIsValid_accepts_iff
                           (mkCapsuleIn 7%N "telegram" Text "" "bob")))).
    reflexivity.
  - apply (proj2 (proj2 (capsuleIsValid_accepts_iff
                           (mkCapsuleIn 7%N "telegram" Text "hello" "")))).
    + discriminate.
    + right. right. reflexivity.
  - apply (proj1 (capsuleIsValid_accepts_iff
                    (mkCapsuleIn 7%N "telegram" Text "hello" "bob"))).
    repeat split; discriminate.
Defined.

(** X2: the dispatcher [Backend.message] calls the provider exactly when
    the content type is "Text", and then returns the provider's answer;
    a content type other than "Text", "Image" and "Audio" is answered
    with a "not found" error. *)
Theorem message_calls_iff_text (p : Provider) (c : CapsuleIn) :
  ((message p c).1 <> [] <-> CContentType c = Text) /\
  (CContentType c = Text ->
     message p c = ([CallMessage (Content c)], Message p (Content c))) /\
  (CContentType c <> Text -> CContentType c <> Image -> CContentType c <> Audio ->
     message p c = ([], inr (NotFound ("input type " +:+ CContentType c)))).
Proof.
  unfold message.
  destruct (String.eqb_spec (CContentType c) Text) as [Ht | Ht].
  { split; [split; [tauto | discriminate] |]. split; [reflexivity | tauto]. }
  split; [| split; [tauto |]].
  - repeat case_match; simpl; split; tauto.
  - intros _ Hi Ha.
    destruct (String.eqb_spec (CContentType c) Image); [tauto |].
    destruct (String.eqb_spec (CContentType c) Audio); [tauto |]. reflexivity.
Qed.

Lemma message_calls_iff_text_witness :
  message Fixtures.echoProvider (mkCapsuleIn 7%N "telegram" Text "hello" "bob")
    = ([CallMessage "hello"], inl (mkResponse 200 [mkOutput "text" "hello"] [])) /\
  message Fixtures.echoProvider (mkCapsuleIn 7%N "telegram" "Video" "mp4" "bob")
    = ([], inr (NotFound "input type Video")).
Proof.
  split.
  - exact (proj1 (proj2 (message_calls_iff_text Fixtures.echoProvider
                           (mkCapsuleIn 7%N "telegram" Text "hello" "bob"))) eq_refl).
  - apply (proj2 (proj2 (message_calls_iff_text Fixtures.echoProvider
                           (mkCapsuleIn 7%N "telegram" "Video" "mp4" "bob"))));
      discriminate.
Defined.
End CapsuleValidity.

(** ** The listening loop of the back-end (first revision) *)
Section BackendV1Loop.
Import BackendV1 bprovider.
Variable yamlUnmarshal : string -> CapsuleIn + error.
Variable yamlMarshal : CapsuleOut -> string + error.
Variable p : Provider.

Lemma sentErrors_app (evs1 evs2 : list event) :
  sentErrors (evs1 ++ evs2) = sentErrors evs1 ++ sentErrors evs2.
Proof. apply omap_app. Qed.

Lemma calls_app (evs1 evs2 : list event) :
  calls (evs1 ++ evs2) = calls evs1 ++ calls evs2.
Proof. apply omap_app. Qed.

(** X3: bytes that do not decode, or that decode to a capsule that is not
    valid, are only logged, under the annotation "unmarshaling capsule":
    the provider is not called and nothing is sent; a valid capsule has
    its content handed to the provider. *)
Theorem receive_calls_only_valid (data : string) :
  (forall c, yamlUnmarshal data = inl c -> capsuleIsValid c = None ->
     calls (receive yamlUnmarshal yamlMarshal p data) = [Content c]) /\
  ((forall c, yamlUnmarshal data = inl c -> capsuleIsValid c <> None) ->
     exists err, receive yamlUnmarshal yamlMarshal p data
                 = [LogError (Annotate err "unmarshaling capsule")]).
Proof.
  unfold receive, unmarshalCapsule. split.
  - intros c Hc Hvalid. rewrite Hc, Hvalid. simpl.
    destruct (Message p (Content c)) as [r | err]; [reflexivity |].
    unfold errorHandler. destruct (yamlMarshal _); reflexivity.
  - intros Hinvalid. destruct (yamlUnmarshal data) as [c | err]; [| eauto].
    specialize (Hinvalid c eq_refl).
    destruct (capsuleIsValid c) as [err |]; [eauto | congruence].
Qed.

(** The origin of a message sent on [backendErrorChan]: the encoding of an
    error capsule built from a valid capsule the provider rejected. *)
Lemma receive_sentErrors (data : string) :
  Forall (fun sent =>
            exists c err,
              capsuleIsValid c = None /\ Message p (Content c) = inr err /\
              yamlMarshal (mkCapsuleOut (RespondTo c) (ProviderLabel c) ErrorType
                                        (Content c) (User c) err) = inl sent)
         (sentErrors (receive yamlUnmarshal yamlMarshal p data)).
Proof.
  unfold receive, unmarshalCapsule.
  destruct (yamlUnmarshal data) as [c | err]; [| constructor].
  destruct (capsuleIsValid c) as [err |] eqn:Hvalid; [constructor |].
  simpl. destruct (Message p (Content c)) as [r | err] eqn:Hmsg; [constructor |].
  unfold errorHandler.
  destruct (yamlMarshal _) as [sent | err'] eqn:Hmarshal; simpl; [| constructor].
  constructor; [| constructor]. exists c, err. auto.
Qed.

(** X4: whatever is received, every message [Start] sends on
    [backendErrorChan] is the encoding of an error capsule: content type
    "Error", the identifier, label, content and user of a valid capsule,
    and the error the provider answered for that content.  With a
    provider that never fails the first revision sends nothing at all:
    successful responses are only logged. *)
Theorem Start_sends_only_errors (capsuleInChan : list (recv string)) :
  Forall (fun sent =>
            exists c err,
              capsuleIsValid c = None /\ Message p (Content c) = inr err /\
              yamlMarshal (mkCapsuleOut (RespondTo c) (ProviderLabel c) ErrorType
                                        (Content c) (User c) err) = inl sent)
         (sentErrors (Start yamlUnmarshal yamlMarshal p capsuleInChan)) /\
  ((forall text, exists r, Message p text = inl r) ->
     sentErrors (Start yamlUnmarshal yamlMarshal p capsuleInChan) = []).
Proof.
  assert (Hall : Forall (fun sent =>
            exists c err,
              capsuleIsValid c = None /\ Message p (Content c) = inr err /\
              yamlMarshal (mkCapsuleOut (RespondTo c) (ProviderLabel c) ErrorType
                                        (Content c) (User c) err) = inl sent)
         (sentErrors (Start yamlUnmarshal yamlMarshal p capsuleInChan))).
  { induction capsuleInChan as [| [data |] rest IH]; simpl; try constructor.
    rewrite sentErrors_app. apply Forall_app. split; [apply receive_sentErrors | exact IH]. }
  split; [exact Hall |].
  intros Hok.
  destruct (sentErrors (Start yamlUnmarshal yamlMarshal p capsuleInChan)) as [| sent l];
    [reflexivity |].
  inversion Hall as [| ? ? (c & err & _ & Hmsg & _) _]; subst.
  destruct (Hok (Content c)) as [r Hr]. congruence.
Qed.
End BackendV1Loop.

Section BackendV1LoopExamples.
Import BackendV1 bprovider.

Lemma receive_calls_only_valid_witness :
  calls (receive (fun _ => inl Fixtures.imageCapsule) (fun _ => inl "") Fixtures.echoProvider
                 "data") = ["png-bytes"] /\
  exists err,
    receive (fun _ => inl (mkCapsuleIn 7%N "telegram" Text "" "bob")) (fun _ => inl "")
            Fixtures.echoProvider "data"
      = [LogError (Annotate err "unmarshaling capsule")].
Proof.
  split.
  - exact (proj1 (receive_calls_only_valid (fun _ => inl Fixtures.imageCapsule)
                    (fun _ => inl "") Fixtures.echoProvider "data")
             Fixtures.imageCapsule eq_refl eq_refl).
  - apply (proj2 (receive_calls_only_valid
                    (fun _ => inl (mkCapsuleIn 7%N "telegram" Text "" "bob"))
                    (fun _ => inl "") Fixtures.echoProvider "data")).
    intros c [= <-]. discriminate.
Defined.

Lemma Start_sends_only_errors_witness :
  sentErrors (Start (fun _ => inl Fixtures.imageCapsule) (fun _ => inl "yaml")
                    Fixtures.echoProvider [Received "a"; Received "b"; Closed]) = [].
Proof.
  apply (proj2 (Start_sends_only_errors (fun _ => inl Fixtures.imageCapsule)
                  (fun _ => inl "yaml") Fixtures.echoProvider
                  [Received "a"; Received "b"; Closed])).
  intros text. eexists. reflexivity.
Defined.

Example Start_sends_error_capsule :
  Start (fun _ => inl Fixtures.imageCapsule) (fun out => inl (Error (OError out)))
        Fixtures.failingProvider [Received "a"; Closed]
    = [CallMessage "png-bytes"; SendError "watson unreachable"; CallStop].
Proof. reflexivity. Qed.
End BackendV1LoopExamples.

(** ** The listening loop of the back-end (second revision) *)
Section BackendLoop.
Import Backend bprovider.
Variable p : Provider.

Lemma sends_app (evs1 evs2 : list event) : sends (evs1 ++ evs2) = sends evs1 ++ sends evs2.
Proof. apply omap_app. Qed.

Lemma backend_calls_app (evs1 evs2 : list event) :
  calls (evs1 ++ evs2) = calls evs1 ++ calls evs2.
Proof. apply omap_app. Qed.

(** X5: the back-end answers every capsule it receives with exactly one
    capsule, which has the identifier, front-end label, content and user
    of the one received.  After a successful call its responses are those
    it came with followed by the output texts in order, and its error is
    untouched; after a failed call its error is the provider's and its
    responses are untouched. *)
Theorem receive_answers_same_capsule (c : Capsule) :
  exists c',
    sends (receive p c) = [c'] /\
    capsule.OriginalMessage c' = capsule.OriginalMessage c /\
    capsule.FrontendProvider c' = capsule.FrontendProvider c /\
    capsule.Content c' = capsule.Content c /\
    capsule.User c' = capsule.User c /\
    match Message p (capsule.Content c) with
    | inl response =>
        capsule.Responses c' = capsule.Responses c ++ map OText (Outputs response) /\
        capsule.Error c' = capsule.Error c
    | inr err =>
        capsule.Responses c' = capsule.Responses c /\ capsule.Error c' = Some err
    end.
Proof.
  unfold receive. destruct (Message p (capsule.Content c)) as [response | err].
  - exists (collect c (Outputs response)). split; [reflexivity |].
    destruct (collect_fields (Outputs response) c) as (HR & HO & HF & HC & HU & HE).
    auto 10.
  - exists (capsule.setError c err). simpl. auto 10.
Qed.

Lemma sends_receive_ids (c : Capsule) :
  map capsule.OriginalMessage (sends (receive p c)) = [capsule.OriginalMessage c].
Proof.
  destruct (receive_one_call_one_send p c) as [_ Hlen].
  unfold receive in *. destruct (Message p (capsule.Content c)) as [response | err]; simpl.
  - destruct (collect_fields (Outputs response) c) as (_ & -> & _). reflexivity.
  - reflexivity.
Qed.

Lemma Start_open (cs : list Capsule) :
  Start p (map Received cs) = concat (map (receive p) cs).
Proof.
  induction cs as [| c cs IH]; simpl; [reflexivity |]. rewrite IH. reflexivity.
Qed.

(** X6: up to the closure of the shared channel the loop handles the
    capsules in the order received: the provider is called once per
    capsule with its content, and the capsules sent back carry the
    identifiers of the capsules received, in the same order, none lost
    and none repeated.  At the closure the provider is stopped, and what
    follows on the channel is never looked at. *)
Theorem Start_until_closed (cs : list Capsule) (rest : list (recv Capsule)) :
  Start p (map Received cs ++ Closed :: rest)
    = concat (map (receive p) cs) ++ [CallStop] /\
  map capsule.OriginalMessage (sends (Start p (map Received cs ++ Closed :: rest)))
    = map capsule.OriginalMessage cs /\
  calls (Start p (map Received cs ++ Closed :: rest)) = map capsule.Content cs.
Proof.
  assert (Htrace : Start p (map Received cs ++ Closed :: rest)
                   = concat (map (receive p) cs) ++ [CallStop]).
  { induction cs as [| c cs IH]; simpl; [reflexivity |].
    rewrite IH, <- app_assoc. reflexivity. }
  rewrite Htrace. clear Htrace. split; [reflexivity |].
  rewrite sends_app, backend_calls_app. simpl. rewrite !app_nil_r.
  split.
  - induction cs as [| c cs IH]; [reflexivity |].
    change (concat (map (receive p) (c :: cs)))
      with (receive p c ++ concat (map (receive p) cs)).
    rewrite sends_app, map_app, sends_receive_ids, IH. reflexivity.
  - induction cs as [| c cs IH]; [reflexivity |].
    change (concat (map (receive p) (c :: cs)))
      with (receive p c ++ concat (map (receive p) cs)).
    rewrite backend_calls_app, IH.
    destruct (receive_one_call_one_send p c) as [-> _]. reflexivity.
Qed.
End BackendLoop.

(** ** Initialization of the back-end manager *)
Section BackendInitialization.
Import Backend bprovider.
Variable providerCollection : gmap string Prototype.

(** X7: [New] returns a manager only when the configured label is in the
    registry and the registered instance initializes, and the manager
    then holds that initialized provider.  Every error it returns is
    annotated "initiliazing frontend"; it is a "not found" error when the
    label is unknown, and has the kind of the provider's own error when
    initialization fails.  A configuration that could not be read is
    returned as an error too. *)
Theorem New_backend (providerConfig : Config) :
  match New providerCollection (inl providerConfig) with
  | inl b =>
      exists proto, providerCollection !! Label providerConfig = Some proto /\
                    proto providerConfig = inl (activatedProvider b)
  | inr e =>
      exists err, e = Annotate err "initiliazing frontend" /\
        ((providerCollection !! Label providerConfig = None /\ IsNotFound e = true) \/
         (exists proto cause,
            providerCollection !! Label providerConfig = Some proto /\
            proto providerConfig = inr cause /\
            err = Annotate cause ("loading provider " +:+ Label providerConfig) /\
            IsNotFound e = IsNotFound cause))
  end /\
  forall err, New providerCollection (inr err) = inr (Annotate err "initiliazing frontend").
Proof.
  split; [| reflexivity].
  unfold New. pose proof (loadProvider_backend providerCollection providerConfig) as Hload.
  destruct (loadProvider providerCollection providerConfig) as [b | err].
  - exact Hload.
  - exists err. split; [reflexivity |].
    destruct Hload as [[Hnone ->] | (proto & cause & Hsome & Hinit & ->)].
    + left. auto.
    + right. exists proto, cause. auto.
Qed.

Example New_backend_unknown :
  New {[ "watson" := fun _ => inl Fixtures.echoProvider ]}
      (inl (mkConfig 0%N "dialogflow" "" "" "" ""))
    = inr (Annotate (NotFound "provider called `dialogflow`") "initiliazing frontend").
Proof. reflexivity. Qed.
End BackendInitialization.

(** ** Recording and consuming pending messages *)
Section PendingRoundTrip.
Import fprovider telegram.

Lemma withPending_same (t : Telegram) : withPending t (pendingMessages t) = t.
Proof. destruct t; reflexivity. Qed.

Lemma scanPending_entry (u : UUID) (pending : list message) : forall i,
  snd <$> scanPending u pending i = head (filter (fun m => uuid m = u) pending).
Proof.
  induction pending as [| m0 rest IH]; intros i; simpl; [reflexivity |].
  rewrite filter_cons. case_bool_decide as Hu.
  - rewrite decide_True by assumption. reflexivity.
  - rewrite decide_False by assumption. apply IH.
Qed.

Lemma findPendingMessage_entry (t : Telegram) (u : UUID) (m : message) :
  (exists t', findPendingMessage t u = (t', inl m)) <->
  head (filter (fun m' => uuid m' = u) (pendingMessages t)) = Some m.
Proof.
  unfold findPendingMessage.
  pose proof (scanPending_entry u (pendingMessages t) 0) as Hentry.
  destruct (pendingMessages t) as [| m0 rest] eqn:Hpending.
  { simpl. split; [intros [t' [=]] | discriminate]. }
  cbn [length Nat.eqb].
  destruct (scanPending u (m0 :: rest) 0) as [[k m'] |]; simpl in Hentry; rewrite <- Hentry.
  - split; [intros [t' [= _ ->]]; reflexivity | intros [= ->]; eauto].
  - split; [intros [t' [=]] | discriminate].
Qed.

Lemma findPendingMessage_split (t t' : Telegram) (u : UUID) (m : message) :
  findPendingMessage t u = (t', inl m) ->
  exists before after,
    pendingMessages t = before ++ m :: after /\
    pendingMessages t' = before ++ after /\
    TAuthorizedUsers t' = TAuthorizedUsers t /\
    uuid m = u /\ Forall (fun m' => uuid m' <> u) before.
Proof.
  unfold findPendingMessage.
  destruct (length (pendingMessages t) =? 0)%nat; [discriminate |].
  pose proof (scanPending_spec u (pendingMessages t) 0) as Hscan.
  destruct (scanPending u (pendingMessages t) 0) as [[j m'] |]; [| discriminate].
  destruct Hscan as (k & -> & Hk & Hm & Hbefore).
  intros [= <- <-].
  exists (take k (pendingMessages t)), (drop (S k) (pendingMessages t)).
  split; [symmetry; apply take_drop_middle, Hk |]. auto.
Qed.

(** X8: a lookup that finds its entry removes the first entry recorded
    under that identifier and nothing else: the entries of every other
    identifier are kept, in their order, and so is the list of authorized
    users. *)
Theorem findPendingMessage_removes_first (t t' : Telegram) (u : UUID) (m : message) :
  findPendingMessage t u = (t', inl m) ->
  filter (fun m' => uuid m' = u) (pendingMessages t)
    = m :: filter (fun m' => uuid m' = u) (pendingMessages t') /\
  (forall u', u' <> u ->
     filter (fun m' => uuid m' = u') (pendingMessages t')
       = filter (fun m' => uuid m' = u') (pendingMessages t)) /\
  TAuthorizedUsers t' = TAuthorizedUsers t.
Proof.
  intros Hfind.
  destruct (findPendingMessage_split _ _ _ _ Hfind)
    as (before & after & -> & -> & Husers & Hm & Hbefore).
  split; [| split; [| exact Husers]].
  - rewrite !filter_app, filter_cons, decide_True by exact Hm.
    replace (filter (fun m' => uuid m' = u) before) with (@nil message); [reflexivity |].
    symmetry. clear -Hbefore. induction Hbefore as [| m0 l Hm0 _ IH]; [reflexivity |].
    rewrite filter_cons, decide_False by exact Hm0. exact IH.
  - intros u' Hne. rewrite !filter_app, filter_cons, decide_False; [reflexivity |].
    rewrite Hm. intros Heq. apply Hne. symmetry. exact Heq.
Qed.

(** X9: consuming one identifier does not disturb the others: a different
    identifier finds the same entry after the removal as before it. *)
Theorem findPendingMessage_other_identifier (t t' : Telegram) (u u' : UUID)
    (m m' : message) :
  findPendingMessage t u = (t', inl m) -> u' <> u ->
  ((exists t2, findPendingMessage t' u' = (t2, inl m')) <->
   (exists t2, findPendingMessage t u' = (t2, inl m'))).
Proof.
  intros Hfind Hne.
  destruct (findPendingMessage_split _ _ _ _ Hfind)
    as (before & after & Ht & Ht' & _ & Hm & _).
  rewrite !findPendingMessage_entry, Ht, Ht'.
  rewrite !filter_app, filter_cons, decide_False; [reflexivity |].
  rewrite Hm. intros Heq. apply Hne. symmetry. exact Heq.
Qed.

Lemma scanPending_last (u : UUID) (m : message) (pending : list message) : forall i,
  Forall (fun m' => uuid m' <> u) pending -> uuid m = u ->
  scanPending u (pending ++ [m]) i = Some (i + length pending, m).
Proof.
  induction pending as [| m0 rest IH]; intros i Hfresh Hm; simpl.
  - rewrite bool_decide_eq_true_2 by exact Hm. rewrite Nat.add_0_r. reflexivity.
  - inversion Hfresh as [| ? ? Hm0 Hrest]; subst.
    rewrite bool_decide_eq_false_2 by exact Hm0.
    rewrite (IH (S i) Hrest eq_refl). f_equal. f_equal. lia.
Qed.

Lemma findPendingMessage_recorded (t : Telegram) (m : message) :
  Forall (fun m' => uuid m' <> uuid m) (pendingMessages t) ->
  findPendingMessage (withPending t (pendingMessages t ++ [m])) (uuid m) = (t, inl m).
Proof.
  intros Hfresh. unfold findPendingMessage. simpl pendingMessages.
  rewrite length_app. simpl length.
  replace (length (pendingMessages t) + 1 =? 0)%nat with false
    by (symmetry; apply Nat.eqb_neq; lia).
  rewrite (scanPending_last (uuid m) m (pendingMessages t) 0 Hfresh eq_refl).
  simpl Nat.add.
  rewrite take_app_length, drop_ge by (rewrite length_app; simpl; lia).
  rewrite app_nil_r. unfold withPending. simpl.
  destruct t; reflexivity.
Qed.

(** X10: recording a text message under an identifier that is not
    pending, then looking that identifier up, gives back the sender of
    the message and leaves the binding exactly as it was before the
    message; the capsule forwarded to the manager carries the same
    identifier, the label "telegram", the text and the sender's name. *)
Theorem record_then_lookup (t : Telegram) (msg : TbMessage) (u : UUID) :
  Forall (fun m' => uuid m' <> u) (pendingMessages t) ->
  exists t1 m,
    processUserMessage t msg Text (inl u)
      = (t1, [UserInput (mkCapsuleProvider u "telegram" (TbText msg)
                                           (Username (Sender msg)))], None) /\
    pendingMessages t1 = pendingMessages t ++ [m] /\
    user m = Sender msg /\
    findPendingMessage t1 u = (t, inl m).
Proof.
  intros Hfresh.
  exists (withPending t (pendingMessages t ++ [mkMessage u Text (TbText msg) (Sender msg)])),
         (mkMessage u Text (TbText msg) (Sender msg)).
  split; [reflexivity |]. split; [reflexivity |]. split; [reflexivity |].
  exact (findPendingMessage_recorded t (mkMessage u Text (TbText msg) (Sender msg)) Hfresh).
Qed.

Lemma record_then_lookup_witness :
  exists t1 m,
    processUserMessage Fixtures.onePending
        (mkTbMessage Fixtures.bob "bye") Text (inl 9%N)
      = (t1, [UserInput (mkCapsuleProvider 9%N "telegram" "bye" "bob")], None) /\
    pendingMessages t1 = [Fixtures.pendingHello; m] /\
    user m = Fixtures.bob /\
    findPendingMessage t1 9%N = (Fixtures.onePending, inl m).
Proof.
  apply (record_then_lookup Fixtures.onePending (mkTbMessage Fixtures.bob "bye") 9%N).
  constructor; [discriminate | constructor].
Defined.

Lemma findPendingMessage_removes_first_witness :
  filter (fun m' => uuid m' = 7%N) (pendingMessages Fixtures.twoPending)
    = [Fixtures.pendingHello] /\
  filter (fun m' => uuid m' = 9%N)
         (pendingMessages (withPending Fixtures.twoPending [Fixtures.pendingBye]))
    = [Fixtures.pendingBye].
Proof.
  destruct (findPendingMessage_removes_first Fixtures.twoPending
              (withPending Fixtures.twoPending [Fixtures.pendingBye]) 7%N
              Fixtures.pendingHello eq_refl) as (Hfirst & Hother & _).
  split; [exact Hfirst |].
  rewrite (Hother 9%N); [reflexivity | discriminate].
Defined.

Lemma findPendingMessage_other_identifier_witness :
  exists t2,
    findPendingMessage (withPending Fixtures.twoPending [Fixtures.pendingBye]) 9%N
      = (t2, inl Fixtures.pendingBye).
Proof.
  apply (proj2 (findPendingMessage_other_identifier Fixtures.twoPending
                  (withPending Fixtures.twoPending [Fixtures.pendingBye])
                  7%N 9%N Fixtures.pendingHello Fixtures.pendingBye eq_refl
                  ltac:(discriminate))).
  eexists. reflexivity.
Defined.
End PendingRoundTrip.

(** ** Delivery and reception by the telegram binding *)
Section TelegramBinding.
Import fprovider telegram.

Lemma Message_lookup (t : Telegram) (c : Capsule) :
  match findPendingMessage t (capsule.OriginalMessage c) with
  | (t', inl m) => exists effects, Message t c = (t', effects, None)
  | (t', inr err) => Message t c = (t', [], Some err)
  end.
Proof.
  unfold Message, sendErrorMessage, sendTextMessage.
  destruct (findPendingMessage t (capsule.OriginalMessage c)) as [t' [m | err]];
    repeat case_match; eauto.
Qed.

(** X11: [Message] returns an error exactly when no pending entry carries
    the capsule's identifier; it then sends nothing and leaves the binding
    as it was. *)
Theorem Message_fails_iff_not_pending (t : Telegram) (c : Capsule) :
  ((Message t c).2 <> None <->
     Forall (fun m => uuid m <> capsule.OriginalMessage c) (pendingMessages t)) /\
  ((Message t c).2 <> None -> (Message t c).1 = (t, [])).
Proof.
  assert (Hiff : (Message t c).2 <> None <->
     Forall (fun m => uuid m <> capsule.OriginalMessage c) (pendingMessages t)).
  { split.
    - intros Herr. pose proof (Message_lookup t c) as Hlookup.
      destruct (findPendingMessage t (capsule.OriginalMessage c)) as [t' [m | err]] eqn:Hfind.
      + destruct Hlookup as [effects Hmsg]. rewrite Hmsg in Herr. simpl in Herr. congruence.
      + apply Forall_forall. intros m Hin Hm.
        assert (Hhead : exists m0,
                  head (filter (fun m' => uuid m' = capsule.OriginalMessage c)
                               (pendingMessages t)) = Some m0).
        { destruct (filter (fun m' => uuid m' = capsule.OriginalMessage c)
                           (pendingMessages t)) as [| m0 l] eqn:Hfilter; [| eauto].
          assert (Hin' : m ∈ filter (fun m' => uuid m' = capsule.OriginalMessage c)
                                    (pendingMessages t))
            by (apply list_elem_of_filter; auto).
          rewrite Hfilter in Hin'. inversion Hin'. }
        destruct Hhead as [m0 Hm0].
        apply findPendingMessage_entry in Hm0 as [t2 Hhit]. congruence.
    - intros Hall. rewrite (Message_miss t c Hall). discriminate. }
  split; [exact Hiff |].
  intros Herr. apply Hiff in Herr. rewrite (Message_miss t c Herr). reflexivity.
Qed.

(** X12: with identifiers recorded at most once, a reply is delivered at
    most once: after [Message] has delivered a capsule, delivering the
    same capsule again sends nothing and returns the error of a miss. *)
Theorem Message_delivers_once (t t' : Telegram) (c : Capsule) (effects : list effect) :
  NoDup (uuid <$> pendingMessages t) ->
  Message t c = (t', effects, None) ->
  length (pendingMessages t) = S (length (pendingMessages t')) /\
  Message t' c = (t', [], Some (missError t' (capsule.OriginalMessage c))).
Proof.
  intros Hnodup Hmsg. pose proof (Message_lookup t c) as Hlookup.
  destruct (findPendingMessage t (capsule.OriginalMessage c)) as [t1 [m | err]] eqn:Hfind.
  - destruct Hlookup as [effects' Hmsg']. rewrite Hmsg in Hmsg'.
    injection Hmsg' as -> _.
    destruct (findPendingMessage_split _ _ _ _ Hfind)
      as (before & after & Ht & Ht' & _ & Hm & _).
    destruct (findPendingMessage_hit _ _ _ _ Hfind) as (k & Hk & _ & Heq).
    split.
    + rewrite Ht, Ht', !length_app. simpl. lia.
    + apply Message_miss. rewrite Heq. simpl.
      apply (removed_is_absent _ _ k m Hnodup Hk Hm).
  - rewrite Hlookup in Hmsg. discriminate.
Qed.

Lemma Message_delivers_once_witness :
  Message (withPending Fixtures.onePending []) Fixtures.replyCapsule
    = (withPending Fixtures.onePending [], [],
       Some (NotProvisioned "pending messages")).
Proof.
  assert (Hnodup : NoDup (uuid <$> pendingMessages Fixtures.onePending))
    by apply NoDup_singleton.
  exact (proj2 (Message_delivers_once Fixtures.onePending
                  (withPending Fixtures.onePending []) Fixtures.replyCapsule
                  [BotSend Fixtures.bob "hi bob"; BotSend Fixtures.bob "how are you?"]
                  Hnodup eq_refl)).
Defined.

Lemma NoDup_remove_middle (before after : list message) (m : message) :
  NoDup (uuid <$> before ++ m :: after) -> NoDup (uuid <$> before ++ after).
Proof.
  rewrite !fmap_app, fmap_cons. intros Hnodup.
  apply NoDup_app in Hnodup as (Hbefore & Hdisj & Hafter).
  apply NoDup_cons in Hafter as [_ Hafter].
  apply NoDup_app. split; [exact Hbefore |]. split; [| exact Hafter].
  intros x Hx Hin. apply (Hdisj x Hx). right. exact Hin.
Qed.

Lemma NoDup_record (pending : list message) (m : message) :
  NoDup (uuid <$> pending) -> Forall (fun m' => uuid m' <> uuid m) pending ->
  NoDup (uuid <$> pending ++ [m]).
Proof.
  intros Hnodup Hfresh. rewrite fmap_app. apply NoDup_app.
  split; [exact Hnodup |]. split; [| apply NoDup_singleton].
  intros x Hx Hin. apply list_elem_of_singleton in Hin. subst x.
  apply list_elem_of_fmap in Hx as (m' & Heq & Hin').
  rewrite Forall_forall in Hfresh. apply (Hfresh m' Hin'). symmetry. exact Heq.
Qed.

(** X13: the binding keeps the identifiers of its pending entries
    distinct: delivering any capsule keeps them distinct, and so does
    handling a text message, provided the identifier drawn for it is not
    already pending. *)
Theorem pending_identifiers_stay_unique (t : Telegram) :
  NoDup (uuid <$> pendingMessages t) ->
  (forall c, NoDup (uuid <$> pendingMessages (Message t c).1.1)) /\
  (forall msg newRandom,
     (forall u, newRandom = inl u ->
                Forall (fun m => uuid m <> u) (pendingMessages t)) ->
     NoDup (uuid <$> pendingMessages (textMessageHandler t msg newRandom).1)).
Proof.
  intros Hnodup. split.
  - intros c. pose proof (Message_lookup t c) as Hlookup.
    destruct (findPendingMessage t (capsule.OriginalMessage c)) as [t' [m | err]] eqn:Hfind.
    + destruct Hlookup as [effects ->]. simpl.
      destruct (findPendingMessage_split _ _ _ _ Hfind)
        as (before & after & Ht & -> & _).
      rewrite Ht in Hnodup. exact (NoDup_remove_middle _ _ _ Hnodup).
    + rewrite Hlookup. simpl.
      unfold findPendingMessage in Hfind.
      destruct (length (pendingMessages t) =? 0)%nat; [injection Hfind as <- _; exact Hnodup |].
      destruct (scanPending _ _ _) as [[k m] |]; [discriminate |].
      injection Hfind as <- _. exact Hnodup.
  - intros msg newRandom Hfresh. unfold textMessageHandler.
    destruct (userIsValid (TAuthorizedUsers t) (Sender msg)); simpl; [| exact Hnodup].
    destruct newRandom as [u | err]; simpl; [| exact Hnodup].
    apply NoDup_record; [exact Hnodup |]. simpl. apply Hfresh. reflexivity.
Qed.

Lemma pending_identifiers_stay_unique_witness :
  NoDup (uuid <$> pendingMessages
           (textMessageHandler Fixtures.onePending
              (mkTbMessage Fixtures.bob "bye") (inl 9%N)).1).
Proof.
  assert (Hnodup : NoDup (uuid <$> pendingMessages Fixtures.onePending))
    by apply NoDup_singleton.
  apply (proj2 (pending_identifiers_stay_unique Fixtures.onePending Hnodup)).
  intros u [= <-]. constructor; [discriminate | constructor].
Defined.

(** X14: a text message from a sender who matches an authorized user on
    both identifier and name is recorded as pending under the identifier
    drawn for it and forwarded to the manager under that identifier,
    with nothing sent to the user; when no identifier can be drawn,
    nothing is recorded or forwarded and the sender is sent the error as
    a system-log message. *)
Theorem textMessageHandler_accepts (t : Telegram) (msg : TbMessage) :
  (exists a, a ∈ TAuthorizedUsers t /\
             Name a = Username (Sender msg) /\ ID a = TbID (Sender msg)) ->
  (forall u,
     textMessageHandler t msg (inl u)
       = (withPending t (pendingMessages t ++ [mkMessage u Text (TbText msg) (Sender msg)]),
          [LogDebug "User message received";
           UserInput (mkCapsuleProvider u "telegram" (TbText msg)
                                        (Username (Sender msg)))])) /\
  (forall err,
     textMessageHandler t msg (inr err)
       = (t, [LogDebug "User message received";
              BotSend (Sender msg)
                (SystemLog ("proccessing user message: " +:+ Error err) ErrorStatus)])).
Proof.
  intros Hauth. apply userIsValid_true in Hauth.
  unfold textMessageHandler. rewrite Hauth. simpl. split; reflexivity.
Qed.

Lemma textMessageHandler_accepts_witness :
  textMessageHandler Fixtures.onePending (mkTbMessage Fixtures.bob "bye")
                     (inr (External "entropy exhausted"))
    = (Fixtures.onePending,
       [LogDebug "User message received";
        BotSend Fixtures.bob
          "[SYSTEM]Error: proccessing user message: entropy exhausted"]).
Proof.
  assert (Hauth : exists a, a ∈ TAuthorizedUsers Fixtures.onePending /\
                            Name a = "bob" /\ ID a = 42%Z).
  { exists (mkUser 42 "bob"). split; [left | split; reflexivity]. }
  exact (proj2 (textMessageHandler_accepts Fixtures.onePending
                  (mkTbMessage Fixtures.bob "bye") Hauth)
           (External "entropy exhausted")).
Defined.

(** X15: [Initialize] fails exactly when the bot cannot be created, with
    that error annotated "initializing telegram"; the binding it returns
    otherwise has the authorized users of the configuration and no
    pending message, so that any reply capsule delivered before a user
    has written is refused with "pending messages not provisioned" and
    nothing is sent. *)
Theorem Initialize_empty (newBot : string -> option error) (config : Config) :
  match Initialize newBot config with
  | inl t =>
      newBot (Token config) = None /\
      TAuthorizedUsers t = AuthorizedUsers config /\
      pendingMessages t = [] /\
      forall c, Message t c = (t, [], Some (NotProvisioned "pending messages"))
  | inr e =>
      exists err, newBot (Token config) = Some err /\
                  e = Annotate err "initializing telegram"
  end.
Proof.
  unfold Initialize. destruct (newBot (Token config)) as [err |]; [eauto |].
  repeat split. intros c.
  rewrite (Message_miss (mkTelegram (AuthorizedUsers config) []) c); [reflexivity |].
  constructor.
Qed.
End TelegramBinding.

(** ** The dispatch loop of the front-end manager *)
Section FrontendLoop.
Import fprovider Frontend.
Context {P E : Type} `{!Provider P E}.

Lemma sentToBackend_app (evs1 evs2 : list (event E)) :
  sentToBackend (evs1 ++ evs2) = sentToBackend evs1 ++ sentToBackend evs2.
Proof. apply omap_app. Qed.

Lemma stopped_app (evs1 evs2 : list (event E)) :
  stopped (evs1 ++ evs2) = stopped evs1 ++ stopped evs2.
Proof. apply omap_app. Qed.

Lemma effects_quiet (effects : list E) :
  sentToBackend (map Effect effects) = [] /\ stopped (map Effect effects) = [] /\
  delivered (map Effect effects) = [].
Proof. induction effects as [| e l (IH1 & IH2 & IH3)]; simpl; auto. Qed.

Lemma message_quiet (c : Capsule) (ps : list P) :
  sentToBackend (message ps c).1.2 = [] /\ stopped (message ps c).1.2 = [] /\
  length (delivered (message ps c).1.2) <= 1 /\
  length (message ps c).1.1 = length ps.
Proof.
  induction ps as [| q ps IH]; simpl; [auto |].
  destruct (String.eqb (capsule.FrontendProvider c) (GetLabel q)).
  - destruct (Message q c) as [[q' effects] r]. simpl.
    destruct (effects_quiet effects) as (-> & -> & ->). auto.
  - destruct (message ps c) as [[rest' evs] r]. simpl in *.
    destruct IH as (? & ? & ? & ?). auto.
Qed.

Lemma stopProviders_quiet (ps : list P) : forall userInputOpen,
  sentToBackend (stopProviders ps userInputOpen : list (event E)) = [].
Proof.
  induction ps as [| q ps IH]; intros userInputOpen; simpl; [reflexivity |].
  destruct (Stop q userInputOpen) as [stillOpen |]; [apply IH | reflexivity].
Qed.

Lemma logged_quiet (r : option error) :
  sentToBackend (match r with Some err => [LogError err] | None => [] end
                 : list (event E)) = [] /\
  stopped (match r with Some err => [LogError err] | None => [] end
           : list (event E)) = [].
Proof. destruct r; auto. Qed.

(** X16: [Frontend.message] never adds or removes a provider and changes
    at most one of them: every provider whose label is not the capsule's
    is left as it is, at most one provider's [Message] is called, and
    nothing is put on the shared channel. *)
Theorem message_changes_one_provider (ps : list P) (c : Capsule) :
  length (message ps c).1.1 = length ps /\
  (forall i q, ps !! i = Some q -> notFor c q -> (message ps c).1.1 !! i = Some q) /\
  (exists i, forall j, j <> i -> (message ps c).1.1 !! j = ps !! j) /\
  length (delivered (message ps c).1.2) <= 1 /\
  sentToBackend (message ps c).1.2 = [].
Proof.
  destruct (message_quiet c ps) as (Hsent & _ & Hcalls & Hlen).
  split; [exact Hlen |]. split; [| split; [| auto]].
  - induction ps as [| q0 ps IH]; intros i q Hi Hq; [discriminate |]. simpl.
    destruct (String.eqb_spec (capsule.FrontendProvider c) (GetLabel q0)) as [Heq | Hne].
    + destruct (Message q0 c) as [[q' effects] r]. simpl.
      destruct i as [| i]; [| exact Hi].
      injection Hi as ->. exfalso. apply Hq. symmetry. exact Heq.
    + destruct (message ps c) as [[rest' evs] r] eqn:Hrest. simpl.
      destruct i as [| i]; [exact Hi |].
      destruct (message_quiet c ps) as (H1 & H2 & H3 & H4). rewrite Hrest in *.
      simpl in *. apply IH; auto.
  - clear Hsent Hcalls Hlen. induction ps as [| q0 ps IH]; simpl.
    + exists 0. reflexivity.
    + destruct (String.eqb (capsule.FrontendProvider c) (GetLabel q0)).
      * destruct (Message q0 c) as [[q' effects] r]. simpl.
        exists 0. intros [| j] Hj; [congruence | reflexivity].
      * destruct (message ps c) as [[rest' evs] r]. simpl in *.
        destruct IH as [i Hi]. exists (S i).
        intros [| j] Hj; [reflexivity |]. apply Hi. congruence.
Qed.

(** X17: while its inputs are open, the dispatch loop puts on the shared
    channel exactly one capsule per user input received, in the order
    received, built by [sendToBackend]: the input's identifier, label,
    content and user, no response and no error.  Capsules coming back
    from the back-end cause no send, and no provider is stopped. *)
Theorem listen_forwards_user_inputs (inputs : list selected) :
  Forall (fun i => isOpen i = true) inputs ->
  forall ps : list P,
    sentToBackend (listen ps inputs).2 = map sendToBackend (userInputs inputs) /\
    stopped (listen ps inputs).2 = [] /\
    length (listen ps inputs).1 = length ps.
Proof.
  induction 1 as [| i inputs Hopen _ IH]; intros ps; [simpl; auto |].
  destruct i as [[u |] | [c |]]; try discriminate Hopen; simpl.
  - specialize (IH ps). destruct (listen ps inputs) as [ps' evs]. simpl in *.
    destruct IH as (-> & -> & ->). auto.
  - destruct (message_quiet c ps) as (Hsent & Hstop & _ & Hlen).
    destruct (message ps c) as [[ps1 evs1] r]. simpl in *.
    specialize (IH ps1). destruct (listen ps1 inputs) as [ps2 evs2]. simpl in *.
    destruct IH as (IH1 & IH2 & IH3).
    destruct (logged_quiet r) as [Hl1 Hl2].
    rewrite !sentToBackend_app, !stopped_app, Hsent, Hstop, Hl1, Hl2, IH1, IH2.
    split; [reflexivity |]. split; [reflexivity |]. congruence.
Qed.

(** At the closure of either input the loop looks at nothing that
    follows; its trace is what it did before, in which no provider is
    stopped, followed by [stopProviders] on the providers it then has. *)
Lemma listen_at_closure (before after : list selected) (closing : selected) :
  Forall (fun i => isOpen i = true) before ->
  isOpen closing = false ->
  forall ps : list P,
    listen ps (before ++ closing :: after) = listen ps (before ++ [closing]) /\
    sentToBackend (listen ps (before ++ closing :: after)).2
      = map sendToBackend (userInputs before) /\
    length (listen ps (before ++ closing :: after)).1 = length ps /\
    exists evs,
      stopped evs = [] /\
      (listen ps (before ++ closing :: after)).2
        = evs ++ stopProviders (listen ps (before ++ closing :: after)).1
                   (match closing with FromCapsule Closed => true | _ => false end).
Proof.
  intros Hbefore Hclosing.
  induction Hbefore as [| i before Hopen _ IH]; intros ps.
  - destruct closing as [[u |] | [c |]]; try discriminate Hclosing; simpl;
      rewrite stopProviders_quiet; (repeat split); exists []; split; reflexivity.
  - destruct i as [[u |] | [c |]]; try discriminate Hopen; simpl.
    + destruct (IH ps) as (IH1 & IH2 & IH3 & evs & IH4 & IH5). rewrite IH1.
      rewrite IH1 in IH2, IH3, IH5.
      destruct (listen ps (before ++ [closing])) as [ps' evs']. simpl in *.
      rewrite IH2. split; [reflexivity |]. split; [reflexivity |].
      split; [exact IH3 |].
      exists (SendCapsule (sendToBackend u) :: evs). split; [exact IH4 |].
      rewrite IH5. reflexivity.
    + destruct (message_quiet c ps) as (Hsent & Hstop & _ & Hlen).
      destruct (message ps c) as [[ps1 evs1] r]. simpl in *.
      destruct (IH ps1) as (IH1 & IH2 & IH3 & evs & IH4 & IH5). rewrite IH1.
      rewrite IH1 in IH2, IH3, IH5.
      destruct (listen ps1 (before ++ [closing])) as [ps2 evs2]. simpl in *.
      destruct (logged_quiet r) as [Hl1 Hl2].
      rewrite !sentToBackend_app, Hsent, Hl1, IH2.
      split; [reflexivity |]. split; [reflexivity |]. split; [congruence |].
      exists (evs1 ++ match r with Some err => [LogError err] | None => [] end ++ evs).
      split.
      * rewrite !stopped_app, Hstop, Hl2, IH4. reflexivity.
      * rewrite IH5, <- !app_assoc. reflexivity.
Qed.
End FrontendLoop.

Section FrontendLoopExamples.
Import fprovider Frontend.

Lemma listen_forwards_user_inputs_witness :
  sentToBackend
    (listen [Fixtures.onePending]
       [FromUserInput (Received (mkCapsuleProvider 9%N "telegram" "bye" "bob"));
        FromCapsule (Received Fixtures.replyCapsule)]).2
    = [capsule.mkCapsule 9%N "telegram" "bye" "bob" [] None].
Proof.
  apply (listen_forwards_user_inputs
           [FromUserInput (Received (mkCapsuleProvider 9%N "telegram" "bye" "bob"));
            FromCapsule (Received Fixtures.replyCapsule)]).
  repeat constructor.
Defined.

Lemma stopProviders_telegram (ps : list telegram.Telegram) (userInputOpen : bool) :
  stopProviders ps userInputOpen
    = match ps, userInputOpen with
      | [], _ => []
      | [_], true => [CallStop "telegram"]
      | _ :: _ :: _, true => [CallStop "telegram"; CallStop "telegram"; Panic]
      | _ :: _, false => [CallStop "telegram"; Panic]
      end.
Proof. destruct ps as [| t1 [| t2 rest]], userInputOpen; reflexivity. Qed.

(** X18: when either input closes, the loop looks at nothing that follows
    and puts nothing more on the shared channel; it then stops its
    providers in order.  Telegram bindings all close the one [userInput]
    channel in [Stop]: when the capsule channel closes, a single binding
    is stopped and the loop returns, but with two or more the second
    [Stop] panics and no further binding is stopped; when [userInput]
    itself is found closed, the first [Stop] panics. *)
Theorem listen_stops_at_closure (before after : list selected) (closing : selected)
    (ps : list telegram.Telegram) :
  Forall (fun i => isOpen i = true) before ->
  isOpen closing = false ->
  listen ps (before ++ closing :: after) = listen ps (before ++ [closing]) /\
  sentToBackend (listen ps (before ++ closing :: after)).2
    = map sendToBackend (userInputs before) /\
  exists evs,
    stopped evs = [] /\
    (listen ps (before ++ closing :: after)).2
      = evs ++ match closing, ps with
               | _, [] => []
               | FromCapsule Closed, [_] => [CallStop "telegram"]
               | FromCapsule Closed, _ :: _ :: _ =>
                   [CallStop "telegram"; CallStop "telegram"; Panic]
               | _, _ :: _ => [CallStop "telegram"; Panic]
               end.
Proof.
  intros Hbefore Hclosing.
  destruct (listen_at_closure before after closing Hbefore Hclosing ps)
    as (Hcut & Hsent & Hlen & evs & Hstopped & Htrace).
  split; [exact Hcut |]. split; [exact Hsent |].
  exists evs. split; [exact Hstopped |].
  rewrite Htrace, stopProviders_telegram. f_equal.
  destruct (listen ps (before ++ closing :: after)).1 as [| t1 [| t2 rest]];
    destruct ps as [| q1 [| q2 qs]]; try discriminate Hlen;
    destruct closing as [[u |] | [c |]]; try discriminate Hclosing; reflexivity.
Qed.

Lemma listen_stops_at_closure_witness :
  listen [Fixtures.onePending]
         [FromCapsule (Received Fixtures.strayCapsule); FromCapsule Closed;
          FromCapsule (Received Fixtures.replyCapsule)]
    = ([Fixtures.onePending],
       [LogError (NotFound "frontend provider messenger"); CallStop "telegram"]) /\
  exists evs,
    stopped evs = [] /\
    (listen [Fixtures.onePending; Fixtures.byePending]
            [FromCapsule (Received Fixtures.strayCapsule); FromCapsule Closed]).2
      = evs ++ [CallStop "telegram"; CallStop "telegram"; Panic].
Proof.
  assert (Hopen : Forall (fun i => isOpen i = true)
                         [FromCapsule (Received Fixtures.strayCapsule)])
    by (repeat constructor).
  split.
  - exact (proj1 (listen_stops_at_closure
                    [FromCapsule (Received Fixtures.strayCapsule)]
                    [FromCapsule (Received Fixtures.replyCapsule)]
                    (FromCapsule Closed) [Fixtures.onePending] Hopen eq_refl)).
  - exact (proj2 (proj2 (listen_stops_at_closure
                    [FromCapsule (Received Fixtures.strayCapsule)] []
                    (FromCapsule Closed) [Fixtures.onePending; Fixtures.byePending]
                    Hopen eq_refl))).
Defined.
End FrontendLoopExamples.

(** ** A user message through both managers and back *)
Section RoundTrip.
Import fprovider.

Lemma message_telegram (t : telegram.Telegram) (c : Capsule) :
  capsule.FrontendProvider c = "telegram" ->
  Frontend.message [t] c
    = ([(telegram.Message t c).1.1],
       Frontend.CallMessage "telegram" c
         :: map Frontend.Effect (telegram.Message t c).1.2,
       (telegram.Message t c).2).
Proof.
  intros Hlabel. simpl. rewrite Hlabel. simpl.
  destruct (telegram.Message t c) as [[t' effects] r]. reflexivity.
Qed.

Lemma Message_with_entry (t t' : telegram.Telegram) (c : Capsule) (m : telegram.message) :
  telegram.findPendingMessage t (capsule.OriginalMessage c) = (t', inl m) ->
  telegram.Message t c
    = (t',
       match capsule.Error c with
       | Some err =>
           if (0 <? String.length (Error err))%nat
           then [telegram.BotSend (telegram.user m) (SystemLog (Error err) ErrorStatus)]
           else map (telegram.BotSend (telegram.user m)) (capsule.Responses c)
       | None => map (telegram.BotSend (telegram.user m)) (capsule.Responses c)
       end,
       None).
Proof.
  intros Hfind.
  unfold telegram.Message, telegram.sendErrorMessage, telegram.sendTextMessage.
  rewrite Hfind. repeat case_match; reflexivity.
Qed.

(** X19: the whole exchange when the back-end provider answers.  An
    authorized user's text, recorded under an identifier that is not
    pending, is forwarded by the binding; the capsule the front-end
    manager builds from it is answered by the back-end manager with one
    capsule; dispatched to the binding, that capsule makes the bot send
    the sender each output text of the provider, in the provider's order,
    and nothing else, and the binding is again as it was before the
    message. *)
Theorem round_trip_success (t : telegram.Telegram) (msg : telegram.TbMessage)
    (u : UUID) (p : bprovider.Provider) (response : bprovider.Response) :
  (exists a, a ∈ telegram.TAuthorizedUsers t /\
             Name a = telegram.Username (telegram.Sender msg) /\
             ID a = telegram.TbID (telegram.Sender msg)) ->
  Forall (fun m => telegram.uuid m <> u) (telegram.pendingMessages t) ->
  bprovider.Message p (telegram.TbText msg) = inl response ->
  exists t1 userInput c',
    telegram.textMessageHandler t msg (inl u)
      = (t1, [telegram.LogDebug "User message received"; telegram.UserInput userInput]) /\
    Backend.sends (Backend.receive p (Frontend.sendToBackend userInput)) = [c'] /\
    Frontend.message [t1] c'
      = ([t],
         Frontend.CallMessage "telegram" c'
           :: map (fun o => Frontend.Effect
                              (telegram.BotSend (telegram.Sender msg) (bprovider.OText o)))
                  (bprovider.Outputs response),
         None).
Proof.
  intros Hauth Hfresh Hmsg.
  set (m := telegram.mkMessage u Text (telegram.TbText msg) (telegram.Sender msg)).
  set (userInput := mkCapsuleProvider u "telegram" (telegram.TbText msg)
                      (telegram.Username (telegram.Sender msg))).
  set (c := Frontend.sendToBackend userInput).
  exists (telegram.withPending t (telegram.pendingMessages t ++ [m])), userInput,
         (Backend.collect c (bprovider.Outputs response)).
  apply userIsValid_true in Hauth.
  split; [unfold telegram.textMessageHandler; rewrite Hauth; reflexivity |].
  split; [unfold Backend.receive; simpl; rewrite Hmsg; reflexivity |].
  destruct (collect_fields (bprovider.Outputs response) c) as (HR & HO & HF & _ & _ & HE).
  rewrite message_telegram by (rewrite HF; reflexivity).
  rewrite (Message_with_entry _ t _ m)
    by (rewrite HO; exact (findPendingMessage_recorded t m Hfresh)).
  rewrite HE, HR. simpl. rewrite !map_map. reflexivity.
Qed.

(** X20: the same exchange when the provider's call fails with an error
    of non-empty text: the capsule comes back carrying the error, and the
    bot sends the sender one system-log message built from the error
    text; the binding is again as it was before the message. *)
Theorem round_trip_failure (t : telegram.Telegram) (msg : telegram.TbMessage)
    (u : UUID) (p : bprovider.Provider) (err : error) :
  (exists a, a ∈ telegram.TAuthorizedUsers t /\
             Name a = telegram.Username (telegram.Sender msg) /\
             ID a = telegram.TbID (telegram.Sender msg)) ->
  Forall (fun m => telegram.uuid m <> u) (telegram.pendingMessages t) ->
  bprovider.Message p (telegram.TbText msg) = inr err ->
  Error err <> "" ->
  exists t1 userInput c',
    telegram.textMessageHandler t msg (inl u)
      = (t1, [telegram.LogDebug "User message received"; telegram.UserInput userInput]) /\
    Backend.sends (Backend.receive p (Frontend.sendToBackend userInput)) = [c'] /\
    Frontend.message [t1] c'
      = ([t],
         [Frontend.CallMessage "telegram" c';
          Frontend.Effect (telegram.BotSend (telegram.Sender msg)
                             (SystemLog (Error err) ErrorStatus))],
         None).
Proof.
  intros Hauth Hfresh Hmsg Htext.
  set (m := telegram.mkMessage u Text (telegram.TbText msg) (telegram.Sender msg)).
  set (userInput := mkCapsuleProvider u "telegram" (telegram.TbText msg)
                      (telegram.Username (telegram.Sender msg))).
  exists (telegram.withPending t (telegram.pendingMessages t ++ [m])), userInput,
         (capsule.setError (Frontend.sendToBackend userInput) err).
  apply userIsValid_true in Hauth.
  split; [unfold telegram.textMessageHandler; rewrite Hauth; reflexivity |].
  split; [unfold Backend.receive; simpl; rewrite Hmsg; reflexivity |].
  rewrite message_telegram by reflexivity.
  rewrite (Message_with_entry _ t _ m)
    by exact (findPendingMessage_recorded t m Hfresh).
  simpl. destruct (Error err) as [| a s] eqn:Herr; [congruence |]. reflexivity.
Qed.

Lemma round_trip_success_witness :
  exists t1 userInput c',
    telegram.textMessageHandler (telegram.mkTelegram [mkUser 42 "bob"] [])
        (telegram.mkTbMessage Fixtures.bob "hello") (inl 7%N)
      = (t1, [telegram.LogDebug "User message received"; telegram.UserInput userInput]) /\
    Backend.sends (Backend.receive Fixtures.abProvider (Frontend.sendToBackend userInput))
      = [c'] /\
    Frontend.message [t1] c'
      = ([telegram.mkTelegram [mkUser 42 "bob"] []],
         [Frontend.CallMessage "telegram" c';
          Frontend.Effect (telegram.BotSend Fixtures.bob "A");
          Frontend.Effect (telegram.BotSend Fixtures.bob "B")],
         None).
Proof.
  assert (Hauth : exists a, a ∈ [mkUser 42 "bob"] /\ Name a = "bob" /\ ID a = 42%Z).
  { exists (mkUser 42 "bob"). split; [left | split; reflexivity]. }
  exact (round_trip_success (telegram.mkTelegram [mkUser 42 "bob"] [])
           (telegram.mkTbMessage Fixtures.bob "hello") 7%N Fixtures.abProvider
           (bprovider.mkResponse 200
              [bprovider.mkOutput "text" "A"; bprovider.mkOutput "text" "B"] [])
           Hauth (Forall_nil_2 _) eq_refl).
Defined.

Lemma round_trip_failure_witness :
  exists t1 userInput c',
    telegram.textMessageHandler (telegram.mkTelegram [mkUser 42 "bob"] [])
        (telegram.mkTbMessage Fixtures.bob "hello") (inl 7%N)
      = (t1, [telegram.LogDebug "User message received"; telegram.UserInput userInput]) /\
    Backend.sends (Backend.receive Fixtures.failingProvider
                     (Frontend.sendToBackend userInput)) = [c'] /\
    Frontend.message [t1] c'
      = ([telegram.mkTelegram [mkUser 42 "bob"] []],
         [Frontend.CallMessage "telegram" c';
          Frontend.Effect (telegram.BotSend Fixtures.bob
                             "[SYSTEM]Error: watson unreachable")],
         None).
Proof.
  assert (Hauth : exists a, a ∈ [mkUser 42 "bob"] /\ Name a = "bob" /\ ID a = 42%Z).
  { exists (mkUser 42 "bob"). split; [left | split; reflexivity]. }
  assert (Htext : Error (External "watson unreachable") <> "") by discriminate.
  exact (round_trip_failure (telegram.mkTelegram [mkUser 42 "bob"] [])
           (telegram.mkTbMessage Fixtures.bob "hello") 7%N Fixtures.failingProvider
           (External "watson unreachable") Hauth (Forall_nil_2 _) eq_refl Htext).
Defined.
End RoundTrip.

(** ** More on the conversion of a watson response *)
Section WatsonConversionMore.
Import watson bprovider.
Variable jsonUnmarshal : string -> ResponseWatson + error.

Lemma convertResponse_returns (response : string) (w : ResponseWatson)
    (generics : list Generic) (wintents : list WIntent) :
  jsonUnmarshal response = inl w ->
  wellFormed w generics wintents ->
  convertResponse jsonUnmarshal response
    = Returned (inl (mkResponse (WStatusCode w) (outputsSpec generics)
                       (map (fun i => mkIntent (WIntent_Intent i) (WIntent_Confidence i))
                            wintents))).
Proof.
  intros Hjson (result & output & Hresult & Houtput & Hgenerics & Hintents).
  unfold convertResponse.
  rewrite Hjson, Hresult, Houtput, Hgenerics, Hintents.
  rewrite convertGenerics_outputsSpec, convertIntents_map. reflexivity.
Qed.

Lemma all_Some {A : Type} (l : list (option A)) :
  None ∉ l -> exists l', l = map Some l'.
Proof.
  induction l as [| [a |] l IH]; intros Hnone.
  - exists []. reflexivity.
  - destruct IH as [l' ->]; [intros Hin; apply Hnone; right; exact Hin |].
    exists (a :: l'). reflexivity.
  - exfalso. apply Hnone. left.
Qed.

Lemma None_in_or_not {A : Type} (l : list (option A)) : None ∈ l \/ None ∉ l.
Proof.
  induction l as [| [a |] l [IH | IH]].
  - right. intros Hin. inversion Hin.
  - left. right. exact IH.
  - right. intros Hin. apply elem_of_cons in Hin as [Heq | Hin]; [discriminate | auto].
  - left. left.
  - left. left.
Qed.

Lemma convertGenerics_panics (generics : list (option Generic)) : forall outputs,
  None ∈ generics -> convertGenerics generics outputs = Panicked.
Proof.
  induction generics as [| [g |] generics IH]; intros outputs Hin; simpl.
  - inversion Hin.
  - apply IH. apply elem_of_cons in Hin as [Heq | Hin]; [discriminate | exact Hin].
  - reflexivity.
Qed.

Lemma convertIntents_panics (wintents : list (option WIntent)) : forall intents,
  None ∈ wintents -> convertIntents wintents intents = Panicked.
Proof.
  induction wintents as [| [i |] wintents IH]; intros intents Hin; simpl.
  - inversion Hin.
  - apply IH. apply elem_of_cons in Hin as [Heq | Hin]; [discriminate | exact Hin].
  - reflexivity.
Qed.

Lemma None_not_in_map_Some {A : Type} (l : list A) : None ∉ map Some l.
Proof.
  intros Hin. apply list_elem_of_In, in_map_iff in Hin as (a & Heq & _). discriminate.
Qed.

(** X21: once the JSON has decoded, [convertResponse] never returns an
    error: it returns a response when [Result], [Output] and every
    element of the generic and intent lists are non-nil, and panics on a
    nil dereference otherwise.  JSON that does not decode is returned as
    an error annotated "converting watson response". *)
Theorem convertResponse_panics_iff (response : string) :
  (forall w, jsonUnmarshal response = inl w ->
     (convertResponse jsonUnmarshal response = Panicked <->
        forall generics wintents, ~ wellFormed w generics wintents) /\
     (forall err, convertResponse jsonUnmarshal response <> Returned (inr err))) /\
  (forall err, jsonUnmarshal response = inr err ->
     convertResponse jsonUnmarshal response
       = Returned (inr (Annotate err "converting watson response"))).
Proof.
  split; [| intros err Hjson; unfold convertResponse; rewrite Hjson; reflexivity].
  intros w Hjson.
  assert (Hcases : (exists generics wintents, wellFormed w generics wintents) \/
                   ((forall generics wintents, ~ wellFormed w generics wintents) /\
                    convertResponse jsonUnmarshal response = Panicked)).
  { unfold convertResponse. rewrite Hjson.
    destruct (Result w) as [result |] eqn:Hres.
    2: { right. split; [| reflexivity].
         intros generics wintents (result' & output' & Hr & _). congruence. }
    destruct (watson.Output result) as [output |] eqn:Hout.
    2: { right. split; [| reflexivity].
         intros generics wintents (result' & output' & Hr & Ho & _).
         rewrite Hres in Hr. injection Hr as <-. congruence. }
    destruct (None_in_or_not (Generics output)) as [Hg | Hg].
    { right. rewrite (convertGenerics_panics _ [] Hg). split; [| reflexivity].
      intros generics wintents (result' & output' & Hr & Ho & Hgen & _).
      rewrite Hres in Hr. injection Hr as <-.
      rewrite Hout in Ho. injection Ho as <-.
      rewrite Hgen in Hg. exact (None_not_in_map_Some _ Hg). }
    destruct (None_in_or_not (WIntents output)) as [Hi | Hi].
    { right. rewrite (convertIntents_panics _ [] Hi). split.
      - intros generics wintents (result' & output' & Hr & Ho & _ & Hint).
        rewrite Hres in Hr. injection Hr as <-.
        rewrite Hout in Ho. injection Ho as <-.
        rewrite Hint in Hi. exact (None_not_in_map_Some _ Hi).
      - destruct (convertGenerics (Generics output) []); reflexivity. }
    left. destruct (all_Some _ Hg) as [generics Hgenerics].
    destruct (all_Some _ Hi) as [wintents Hwintents].
    exists generics, wintents, result, output. auto. }
  destruct Hcases as [(generics & wintents & Hwf) | [Hnot Hpanic]].
  - rewrite (convertResponse_returns response w generics wintents Hjson Hwf).
    split; [| discriminate]. split; [discriminate |].
    intros Hnot. exfalso. exact (Hnot generics wintents Hwf).
  - rewrite Hpanic. split; [| discriminate]. split; auto.
Qed.

Lemma append_assoc (a b c : string) : (a +:+ b) +:+ c = a +:+ (b +:+ c).
Proof.
  induction a as [| x a IH]; [reflexivity |].
  change (String x ((a +:+ b) +:+ c) = String x (a +:+ (b +:+ c))).
  f_equal. exact IH.
Qed.

Lemma Join_app (sep : ascii) (l1 l2 : list string) :
  l1 <> [] -> l2 <> [] ->
  strings.Join (l1 ++ l2) sep
    = strings.Join l1 sep +:+ String sep (strings.Join l2 sep).
Proof.
  intros H1 H2. induction l1 as [| a [| b l1] IH]; [congruence | |].
  - simpl. destruct l2; [congruence | reflexivity].
  - change (strings.Join ((a :: b :: l1) ++ l2) sep)
      with (a +:+ String sep (strings.Join ((b :: l1) ++ l2) sep)).
    rewrite IH by discriminate.
    change (strings.Join (a :: b :: l1) sep)
      with (a +:+ String sep (strings.Join (b :: l1) sep)).
    rewrite append_assoc. reflexivity.
Qed.

Lemma linesOf_nonempty (g : Generic) : map OText (linesOf g) <> [].
Proof.
  unfold linesOf. rewrite map_map. simpl. rewrite map_id. apply Split_nonempty.
Qed.

Lemma outputsSpec_texts (generics : list Generic) :
  Forall (fun o => strings.Count (OText o) strings.newline = 0) (outputsSpec generics) /\
  length (outputsSpec generics)
    = length generics
      + sum_list (map (fun g => strings.Count (GText g) strings.newline) generics) /\
  strings.Join (map OText (outputsSpec generics)) strings.newline
    = strings.Join (map GText generics) strings.newline.
Proof.
  unfold outputsSpec. induction generics as [| g generics (IH1 & IH2 & IH3)].
  - repeat split. constructor.
  - simpl concat. split; [| split].
    + apply Forall_app. split; [| exact IH1].
      unfold linesOf. apply Forall_forall. intros o Hin.
      apply list_elem_of_In, in_map_iff in Hin as (line & <- & Hline). simpl.
      pose proof (Split_pieces strings.newline (GText g)) as Hpieces.
      rewrite Forall_forall in Hpieces. apply Hpieces, list_elem_of_In, Hline.
    + rewrite length_app, IH2. destruct (linesOf_lines g) as (-> & _). simpl. lia.
    + rewrite map_app. destruct generics as [| g' generics].
      * simpl. rewrite app_nil_r. apply linesOf_lines.
      * rewrite Join_app.
        -- rewrite IH3. destruct (linesOf_lines g) as (_ & _ & ->). reflexivity.
        -- apply linesOf_nonempty.
        -- simpl. rewrite map_app. intros Heq. apply app_eq_nil in Heq as [Heq _].
           exact (linesOf_nonempty g' Heq).
Qed.

(** X22: on a well-formed response no text is lost or invented: no
    output text contains a newline, there is one output per generic item
    plus one per newline in the items' texts, and the output texts joined
    by newlines are the items' texts joined by newlines; the intents are
    copied in order with their confidence. *)
Theorem convertResponse_keeps_text (response : string) (w : ResponseWatson)
    (generics : list Generic) (wintents : list WIntent) :
  jsonUnmarshal response = inl w ->
  wellFormed w generics wintents ->
  exists r,
    convertResponse jsonUnmarshal response = Returned (inl r) /\
    Forall (fun o => strings.Count (OText o) strings.newline = 0) (Outputs r) /\
    length (Outputs r)
      = length generics
        + sum_list (map (fun g => strings.Count (GText g) strings.newline) generics) /\
    strings.Join (map OText (Outputs r)) strings.newline
      = strings.Join (map GText generics) strings.newline /\
    Intents r = map (fun i => mkIntent (WIntent_Intent i) (WIntent_Confidence i)) wintents.
Proof.
  intros Hjson Hwf. eexists.
  split; [exact (convertResponse_returns response w generics wintents Hjson Hwf) |].
  simpl. destruct (outputsSpec_texts generics) as (H1 & H2 & H3). auto.
Qed.
End WatsonConversionMore.

Section WatsonConversionExamples.
Import watson bprovider.

Lemma convertResponse_panics_iff_witness :
  convertResponse (fun _ => inl (mkResponseWatson 200
                     (Some (mkResultWatson (Some (mkOutputWatson [None] [])))))) "{}"
    = Panicked /\
  convertResponse (fun _ => inr (External "unexpected end of JSON input")) ""
    = Returned (inr (Annotate (External "unexpected end of JSON input")
                              "converting watson response")).
Proof.
  split.
  - apply (proj1 (proj1 (convertResponse_panics_iff
             (fun _ => inl (mkResponseWatson 200
                (Some (mkResultWatson (Some (mkOutputWatson [None] [])))))) "{}")
             _ eq_refl)).
    intros generics wintents (result & output & Hr & Ho & Hgen & _).
    injection Hr as <-. injection Ho as <-. destruct generics; discriminate Hgen.
  - exact (proj2 (convertResponse_panics_iff
             (fun _ => inr (External "unexpected end of JSON input")) "")
             (External "unexpected end of JSON input") eq_refl).
Defined.

Lemma convertResponse_keeps_text_witness :
  exists r,
    convertResponse (fun _ => inl Fixtures.twoLines) "{}" = Returned (inl r) /\
    length (Outputs r) = 3 /\
    strings.Join (map OText (Outputs r)) strings.newline
      = "hello" +:+ String strings.newline ("world" +:+ String strings.newline "bye") /\
    Intents r = [mkIntent "greeting" 1065353216%N].
Proof.
  destruct (convertResponse_keeps_text (fun _ => inl Fixtures.twoLines) "{}"
              Fixtures.twoLines
              [mkGeneric "text" ("hello" +:+ String strings.newline "world");
               mkGeneric "text" "bye"]
              [mkWIntent "greeting" 1065353216%N] eq_refl)
    as (r & Hr & _ & Hlen & Hjoin & Hintents).
  - eexists _, _. repeat split.
  - exists r. split; [exact Hr |]. split; [exact Hlen |].
    split; [exact Hjoin | exact Hintents].
Defined.
End WatsonConversionExamples.

(** ** The dispatch loop of the front-end manager (first revision) *)
Section FrontendV1Loop.
Import fproviderV1 FrontendV1.
Context {P E : Type} `{!Provider P E}.
Variable yamlMarshal : CapsuleProvider -> string + error.
Variable yamlUnmarshal : string -> CapsuleIn -> CapsuleIn * option error.

Lemma sentData_app (evs1 evs2 : list (event E)) :
  sentData (evs1 ++ evs2) = sentData evs1 ++ sentData evs2.
Proof. apply omap_app. Qed.

Lemma sentData_effects (effects : list E) : sentData (map Effect effects) = [].
Proof. induction effects as [| e l IH]; [reflexivity | exact IH]. Qed.

Lemma messageV1_quiet (c : CapsuleIn) (ps : list P) : sentData (message ps c).1.2 = [].
Proof.
  induction ps as [| q ps IH]; simpl; [reflexivity |].
  destruct (String.eqb (IProviderLabel c) (GetLabel q)).
  - destruct (Message q (IRespondTo c) (IContentType c) (IContent c)) as [[q' effects] r].
    simpl. apply sentData_effects.
  - destruct (message ps c) as [[rest' evs] r]. exact IH.
Qed.

Lemma messageV1_no_match (c : CapsuleIn) (ps : list P) :
  Forall (fun q => GetLabel q <> IProviderLabel c) ps ->
  message ps c = (ps, [], Some (NotFound ("frontend provider " +:+ IProviderLabel c))).
Proof.
  induction 1 as [| q ps Hq _ IH]; simpl; [reflexivity |].
  destruct (String.eqb_spec (IProviderLabel c) (GetLabel q)) as [Heq | _].
  - exfalso. apply Hq. symmetry. exact Heq.
  - rewrite IH. reflexivity.
Qed.

Lemma sentData_logged (r : option error) : sentData (logged r : list (event E)) = [].
Proof. destruct r; reflexivity. Qed.

(** X23: in the first revision a user input is put on [capsuleOutChan]
    only if it encodes: while the inputs are open the loop sends, in
    order, the encodings of the user inputs received, leaving out those
    whose encoding fails; what comes back from the back-end causes no
    send. *)
Theorem listenV1_sends_encodings (inputs : list selected) :
  Forall (fun i => isOpen i = true) inputs ->
  forall ps : list P,
    sentData (listen yamlMarshal yamlUnmarshal ps inputs).2
      = omap (fun c => match yamlMarshal c with
                       | inl data => Some data
                       | inr _ => None
                       end) (userInputs inputs).
Proof.
  induction 1 as [| i inputs Hopen _ IH]; intros ps; [reflexivity |].
  destruct i as [[c |] | [data |]]; try discriminate Hopen; simpl.
  - unfold sendToBackend. specialize (IH ps).
    destruct (listen yamlMarshal yamlUnmarshal ps inputs) as [ps' evs]. simpl in *.
    destruct (yamlMarshal c) as [data | err]; simpl; rewrite IH; reflexivity.
  - destruct (yamlUnmarshal data zeroCapsuleIn) as [c decodeError].
    pose proof (messageV1_quiet c ps) as Hquiet.
    destruct (message ps c) as [[ps1 evs1] r]. simpl in Hquiet.
    specialize (IH ps1).
    destruct (listen yamlMarshal yamlUnmarshal ps1 inputs) as [ps2 evs2]. simpl in *.
    rewrite !sentData_app, !sentData_logged, Hquiet, IH. reflexivity.
Qed.

(** X24: in the first revision a failure to decode what the back-end
    sent does not end the turn of the loop: the error is logged and the
    capsule is dispatched as the decoder left it.  When it was left
    zero-valued and no provider has the empty label, a second error,
    "frontend provider  not found", is logged, no provider is called, and
    the loop goes on with the same providers. *)
Theorem listenV1_dispatches_after_decode_failure (ps : list P) (data : string)
    (err : error) (rest : list selected) :
  yamlUnmarshal data zeroCapsuleIn = (zeroCapsuleIn, Some err) ->
  Forall (fun q => GetLabel q <> "") ps ->
  listen yamlMarshal yamlUnmarshal ps (FromBackendError (Received data) :: rest)
    = ((listen yamlMarshal yamlUnmarshal ps rest).1,
       LogError err :: LogError (NotFound "frontend provider ")
         :: (listen yamlMarshal yamlUnmarshal ps rest).2).
Proof.
  intros Hdecode Hlabels. simpl. rewrite Hdecode.
  rewrite (messageV1_no_match zeroCapsuleIn ps Hlabels).
  destruct (listen yamlMarshal yamlUnmarshal ps rest) as [ps' evs]. reflexivity.
Qed.
End FrontendV1Loop.

Section FrontendV1LoopExamples.
Import fproviderV1 FrontendV1.

Lemma listenV1_sends_encodings_witness :
  sentData (listen Fixtures.marshalContent Fixtures.unmarshalFails ["telegram"]
              [FromUserInput (Received (mkCapsuleProvider 7%N "telegram" "Text" "hello" "bob"));
               FromUserInput (Received (mkCapsuleProvider 8%N "telegram" "Text" "" "bob"));
               FromBackendError (Received "data");
               FromUserInput (Received (mkCapsuleProvider 9%N "telegram" "Text" "bye" "bob"))]).2
    = ["hello"; "bye"].
Proof.
  apply (listenV1_sends_encodings Fixtures.marshalContent Fixtures.unmarshalFails
           [FromUserInput (Received (mkCapsuleProvider 7%N "telegram" "Text" "hello" "bob"));
            FromUserInput (Received (mkCapsuleProvider 8%N "telegram" "Text" "" "bob"));
            FromBackendError (Received "data");
            FromUserInput (Received (mkCapsuleProvider 9%N "telegram" "Text" "bye" "bob"))]).
  repeat constructor.
Defined.

Lemma listenV1_dispatches_after_decode_failure_witness :
  listen Fixtures.marshalContent Fixtures.unmarshalFails ["telegram"]
         [FromBackendError (Received "data"); FromBackendError Closed]
    = (["telegram"],
       [LogError (External "yaml: did not find expected key");
        LogError (NotFound "frontend provider ");
        CallStop "telegram"]).
Proof.
  assert (Hlabels : Forall (fun q : string => GetLabel q <> "") ["telegram"]).
  { constructor; [discriminate | constructor]. }
  exact (listenV1_dispatches_after_decode_failure Fixtures.marshalContent
           Fixtures.unmarshalFails ["telegram"] "data"
           (External "yaml: did not find expected key")
           [FromBackendError Closed] eq_refl Hlabels).
Defined.
End FrontendV1LoopExamples.

(** ** What the telegram binding records and forwards *)
Section TelegramRecords.
Import fprovider telegram.

(** X25: [processUserMessage] records a pending entry exactly when it
    forwards a capsule, and both carry the same identifier: it either
    returns an error, leaving the binding as it was and forwarding
    nothing (no identifier could be drawn, or the content type is not
    "Text"), or returns no error, having appended one entry for the
    sender and forwarded the capsule made from it. *)
Theorem processUserMessage_records_iff_forwards (t : Telegram) (msg : TbMessage)
    (ct : ContentType) (newRandom : UUID + error) :
  match processUserMessage t msg ct newRandom with
  | (t', effects, Some err) =>
      t' = t /\ effects = [] /\
      ((exists cause, newRandom = inr cause /\
                      err = Annotate cause "proccessing user message") \/
       (ct <> Text /\
        (IsNotImplemented err = true <-> ct = Audio \/ ct = Image) /\
        (IsNotFound err = true <-> ct <> Audio /\ ct <> Image)))
  | (t', effects, None) =>
      exists m,
        newRandom = inl (uuid m) /\ ct = Text /\
        user m = Sender msg /\ content m = TbText msg /\
        pendingMessages t' = pendingMessages t ++ [m] /\
        TAuthorizedUsers t' = TAuthorizedUsers t /\
        effects = [UserInput (messageToCapsuleProvider m)]
  end.
Proof.
  unfold processUserMessage. destruct newRandom as [u | err0].
  - destruct (String.eqb_spec ct Text) as [-> | Ht].
    + exists (mkMessage u Text (TbText msg) (Sender msg)). repeat split.
    + destruct (String.eqb_spec ct Audio) as [-> | Ha].
      { split; [reflexivity |]. split; [reflexivity |]. right.
        split; [discriminate |].
        split; split; try tauto; try discriminate; try (intros [? ?]; congruence). }
      destruct (String.eqb_spec ct Image) as [-> | Hi].
      { split; [reflexivity |]. split; [reflexivity |]. right.
        split; [discriminate |].
        split; split; try tauto; try discriminate; try (intros [? ?]; congruence). }
      split; [reflexivity |]. split; [reflexivity |]. right.
      split; [exact Ht |]. split; split; try tauto; try discriminate.
  - split; [reflexivity |]. split; [reflexivity |]. left. eauto.
Qed.
End TelegramRecords.

Section MoreExamples.
Import fprovider.

Lemma Message_fails_iff_not_pending_witness :
  (telegram.Message Fixtures.onePending
     (capsule.mkCapsule 8%N "telegram" "hello" "bob" ["hi"] None)).1
    = (Fixtures.onePending, []).
Proof.
  apply (proj2 (Message_fails_iff_not_pending Fixtures.onePending
                  (capsule.mkCapsule 8%N "telegram" "hello" "bob" ["hi"] None))).
  discriminate.
Defined.

Lemma message_changes_one_provider_witness :
  (Frontend.message [Fixtures.onePending] Fixtures.strayCapsule).1.1 !! 0
    = Some Fixtures.onePending.
Proof.
  apply (proj1 (proj2 (message_changes_one_provider [Fixtures.onePending]
                         Fixtures.strayCapsule)) 0 Fixtures.onePending eq_refl).
  discriminate.
Defined.
End MoreExamples.
